(** * One-time message relay: the HTTP protocol handler of
      [internal/server/server.go], embedded and verified.

    The development follows the source file top to bottom:
    - [Strings]: the Go library functions the handlers call on byte strings
      ([strings.HasPrefix], [strings.TrimPrefix], [strings.TrimSpace] with the
      UTF-8 decoding it rests on);
    - [HTTP]: requests, and [http.ResponseWriter] as a value that records the
      header map, the status line once written, and the body;
    - [Storage]: the four-operation [storage.Storage] interface as a type
      class, with the test suite's [mockStore] and an in-memory store that
      follows the storage contract of the design document;
    - [Server]: [Config], the handlers and the routing table of [New];
    - the properties of the handlers. *)

From Stdlib Require Import ZArith String Ascii List Lia Bool.
From stdpp Require Import base option gmap strings list.

Open Scope Z_scope.

(* ===================================================================== *)
(** ** Go byte strings *)
(* ===================================================================== *)

(** A Go [string] is a sequence of bytes; it is modelled by [string], whose
    characters are the bytes. *)
Module Strings.

Definition byteZ (c : ascii) : Z := Z.of_N (N_of_ascii c).

(** [s[i]], for an index in range. *)
Definition byteAt (s : string) (i : Z) : Z :=
  match String.get (Z.to_nat i) s with
  | Some c => byteZ c
  | None => 0
  end.

(** [s[i:]] and [s[:j]]. *)
Definition sliceFrom (i : nat) (s : string) : string :=
  substring i (String.length s - i) s.
Definition sliceTo (j : nat) (s : string) : string := substring 0 j s.

(** [strings.HasPrefix(s, prefix)]. *)
Definition HasPrefix (s prefix : string) : bool := String.prefix prefix s.

(** [strings.TrimPrefix(s, prefix)]: [s] without the leading [prefix], or
    [s] itself when it does not start with it. *)
Definition TrimPrefix (s prefix : string) : string :=
  if HasPrefix s prefix then sliceFrom (String.length prefix) s else s.

(** *** [unicode/utf8] *)

Definition RuneError : Z := 0xFFFD.
Definition RuneSelf : Z := 0x80.

(** [utf8.RuneStart]: the byte is not a continuation byte. *)
Definition RuneStart (b : Z) : bool := negb (Z.land b 0xC0 =? 0x80).

(** Size announced by a leading byte ([first[s0] & 7]); 0 for a byte that
    cannot start a multi-byte sequence. *)
Definition leadSize (s0 : Z) : nat :=
  if (s0 <? 0xC2) || (0xF4 <? s0) then 0%nat
  else if s0 <? 0xE0 then 2%nat
  else if s0 <? 0xF0 then 3%nat
  else 4%nat.

(** [acceptRanges]: the bounds on the second byte. *)
Definition acceptLo (s0 : Z) : Z :=
  if s0 =? 0xE0 then 0xA0 else if s0 =? 0xF0 then 0x90 else 0x80.
Definition acceptHi (s0 : Z) : Z :=
  if s0 =? 0xED then 0x9F else if s0 =? 0xF4 then 0x8F else 0xBF.

Definition isCont (b : Z) : bool := (0x80 <=? b) && (b <=? 0xBF).

(** [utf8.DecodeRuneInString]: the first rune of [s] and its width in
    bytes; [(RuneError, 0)] on the empty string and [(RuneError, 1)] on an
    encoding error. *)
Definition DecodeRuneInString (s : string) : Z * nat :=
  match s with
  | EmptyString => (RuneError, 0%nat)
  | String c0 t =>
    let s0 := byteZ c0 in
    if s0 <? RuneSelf then (s0, 1%nat)
    else
      match leadSize s0 with
      | O => (RuneError, 1%nat)
      | sz =>
        if (String.length s <? sz)%nat then (RuneError, 1%nat)
        else
          let s1 := byteAt s 1 in
          if (s1 <? acceptLo s0) || (acceptHi s0 <? s1) then (RuneError, 1%nat)
          else if (sz <=? 2)%nat then
            (Z.lor (Z.shiftl (Z.land s0 0x1F) 6) (Z.land s1 0x3F), 2%nat)
          else
            let s2 := byteAt s 2 in
            if negb (isCont s2) then (RuneError, 1%nat)
            else if (sz <=? 3)%nat then
              (Z.lor (Z.lor (Z.shiftl (Z.land s0 0x0F) 12)
                            (Z.shiftl (Z.land s1 0x3F) 6))
                     (Z.land s2 0x3F), 3%nat)
            else
              let s3 := byteAt s 3 in
              if negb (isCont s3) then (RuneError, 1%nat)
              else
                (Z.lor (Z.lor (Z.lor (Z.shiftl (Z.land s0 0x07) 18)
                                     (Z.shiftl (Z.land s1 0x3F) 12))
                              (Z.shiftl (Z.land s2 0x3F) 6))
                       (Z.land s3 0x3F), 4%nat)
      end
  end.

(** The backwards scan of [utf8.DecodeLastRuneInString]:
    [for start--; start >= lim; start-- { if RuneStart(s[start]) { break } }],
    entered with [start] already decremented. *)
Fixpoint backToStart (n : nat) (s : string) (lim start : Z) : Z :=
  match n with
  | O => start
  | S n' =>
    if start <? lim then start
    else if RuneStart (byteAt s start) then start
    else backToStart n' s lim (start - 1)
  end.

(** [utf8.DecodeLastRuneInString]: the last rune of [s] and its width. *)
Definition DecodeLastRuneInString (s : string) : Z * nat :=
  let end_ := Z.of_nat (String.length s) in
  if end_ =? 0 then (RuneError, 0%nat)
  else
    let r := byteAt s (end_ - 1) in
    if r <? RuneSelf then (r, 1%nat)
    else
      let lim := Z.max 0 (end_ - 4) in
      let start := Z.max 0 (backToStart 4 s lim (end_ - 2)) in
      let '(r, size) := DecodeRuneInString (sliceFrom (Z.to_nat start) s) in
      if start + Z.of_nat size =? end_ then (r, size) else (RuneError, 1%nat).

(** [unicode.IsSpace]: the Latin-1 spaces, then the [White_Space] table. *)
Definition IsSpace (r : Z) : bool :=
  if r <=? 0xFF then
    (r =? 9) || (r =? 10) || (r =? 11) || (r =? 12) || (r =? 13)
    || (r =? 32) || (r =? 0x85) || (r =? 0xA0)
  else
    (r =? 0x1680) || ((0x2000 <=? r) && (r <=? 0x200A))
    || (r =? 0x2028) || (r =? 0x2029) || (r =? 0x202F)
    || (r =? 0x205F) || (r =? 0x3000).

(** [strings.TrimLeftFunc(s, f)]: drop leading runes while [f] holds. Every
    round drops at least one byte, so [String.length s] rounds suffice. *)
Fixpoint trimLeftLoop (f : Z -> bool) (n : nat) (s : string) : string :=
  match n with
  | O => s
  | S n' =>
    let '(r, wid) := DecodeRuneInString s in
    if (0 <? wid)%nat && f r then trimLeftLoop f n' (sliceFrom wid s) else s
  end.
Definition TrimLeftFunc (s : string) (f : Z -> bool) : string :=
  trimLeftLoop f (String.length s) s.

(** [strings.TrimRightFunc(s, f)]: drop trailing runes while [f] holds. *)
Fixpoint trimRightLoop (f : Z -> bool) (n : nat) (s : string) : string :=
  match n with
  | O => s
  | S n' =>
    let '(r, size) := DecodeLastRuneInString s in
    if (0 <? size)%nat && f r
    then trimRightLoop f n' (sliceTo (String.length s - size) s)
    else s
  end.
Definition TrimRightFunc (s : string) (f : Z -> bool) : string :=
  trimRightLoop f (String.length s) s.

(** [strings.TrimFunc] is [TrimRightFunc] after [TrimLeftFunc]. *)
Definition TrimFunc (s : string) (f : Z -> bool) : string :=
  TrimRightFunc (TrimLeftFunc s f) f.

(** [strings.TrimSpace(s)]: [s] without leading and trailing white space,
    as defined by Unicode. (The library's fast path for ASCII computes the
    same slice.) *)
Definition TrimSpace (s : string) : string := TrimFunc s IsSpace.

(** The first (the last) rune of [s] is white space. *)
Definition leadingSpace (s : string) : bool :=
  let '(r, wid) := DecodeRuneInString s in (0 <? wid)%nat && IsSpace r.
Definition trailingSpace (s : string) : bool :=
  let '(r, size) := DecodeLastRuneInString s in (0 <? size)%nat && IsSpace r.

End Strings.

(* ===================================================================== *)
(** ** net/http: requests and the response writer *)
(* ===================================================================== *)

Module HTTP.

Definition StatusOK : Z := 200.
Definition StatusCreated : Z := 201.
Definition StatusNoContent : Z := 204.
Definition StatusBadRequest : Z := 400.
Definition StatusNotFound : Z := 404.
Definition StatusMethodNotAllowed : Z := 405.
Definition StatusConflict : Z := 409.
Definition StatusTooManyRequests : Z := 429.
Definition StatusInternalServerError : Z := 500.

Definition MethodGet : string := "GET".
Definition MethodPost : string := "POST".
Definition MethodPut : string := "PUT".

(** What a handler reads of [*http.Request]: [r.Method], [r.URL.Path] and
    the bytes of [r.Body] as the client sent them. *)
Record Request := {
  Method : string;
  Path : string;
  Body : string;
}.

(** [io.ReadAll(http.MaxBytesReader(w, r.Body, max))]: the whole body, or an
    error as soon as it has more than [max] bytes. The transport itself is
    taken to deliver the body. *)
Definition ReadAll (body : string) (max : Z) : option string :=
  if Z.of_nat (String.length body) <=? max then Some body else None.

(** [http.ResponseWriter]. [header] is the map returned by [w.Header()];
    [wroteHeader] is the status once the header has been written, and
    [sent] the header map as it was at that moment (later changes to
    [header] do not reach the client); [written] is the body so far. *)
Record ResponseWriter := {
  header : gmap string string;
  wroteHeader : option Z;
  sent : gmap string string;
  written : string;
}.

(** [httptest.NewRecorder()] / a fresh writer for a connection. *)
Definition NewRecorder : ResponseWriter :=
  {| header := ∅; wroteHeader := None; sent := ∅; written := "" |}.

(** [w.Header().Set(key, value)]. *)
Definition Header_Set (key value : string) (w : ResponseWriter) : ResponseWriter :=
  {| header := <[key := value]> (header w); wroteHeader := wroteHeader w;
     sent := sent w; written := written w |}.

(** [w.WriteHeader(code)]: the first call fixes status and headers, any
    later call is ignored. *)
Definition WriteHeader (code : Z) (w : ResponseWriter) : ResponseWriter :=
  match wroteHeader w with
  | Some _ => w
  | None => {| header := header w; wroteHeader := Some code;
               sent := header w; written := written w |}
  end.

(** [w.Write(data)]: writes the header with status 200 first when it was
    not written yet. *)
Definition Write (data : string) (w : ResponseWriter) : ResponseWriter :=
  let w' := WriteHeader StatusOK w in
  {| header := header w'; wroteHeader := wroteHeader w';
     sent := sent w'; written := written w' +:+ data |}.

(** The response on the wire once the handler has returned. *)
Record Response := {
  Status : Z;
  Headers : gmap string string;
  Payload : string;
}.

Definition finish (w : ResponseWriter) : Response :=
  let w' := WriteHeader StatusOK w in
  {| Status := default StatusOK (wroteHeader w');
     Headers := sent w'; Payload := written w' |}.

(** A response that carries the three defensive headers. *)
Definition defended (resp : Response) : Prop :=
  Headers resp !! "Cache-Control" = Some "no-store"
  /\ Headers resp !! "Referrer-Policy" = Some "no-referrer"
  /\ Headers resp !! "X-Content-Type-Options" = Some "nosniff".

End HTTP.

(* ===================================================================== *)
(** ** internal/log: the logging sink *)
(* ===================================================================== *)

Module Log.

Inductive Level := Debug | Info | Warn | Error.

(** One call of a [Logger] method: its level, the message, and the
    ["endpoint"] field, the only field the server passes. *)
Record Entry := { level : Level; msg : string; endpoint : string }.

End Log.

(* ===================================================================== *)
(** ** internal/storage: the storage interface and two stores *)
(* ===================================================================== *)

Module Storage.

(** A Go [error] value, by its message; [None] is [nil]. *)
Definition error := string.

(** The interface [storage.Storage] as the server calls it. A store is a
    state [S]; every operation returns its Go results and the next state.
    TTLs are [time.Duration] values. The [context.Context] argument only
    carries cancellation and is left out. *)
Class Storage (S : Type) := {
  ReserveCode : S -> string -> Z -> (bool * option error) * S;
  AttachCipher : S -> string -> string -> Z -> (bool * option error) * S;
  GetAndDelete : S -> string -> (string * bool * option error) * S;
  Ping : S -> option error * S;
}.

(** *** [mockStore] of the test suite: fixed answers, no state. *)
Record mockStore := {
  reserveOK : bool;
  attachOK : bool;
  attachErr : option error;
  getVal : string;
  getOK : bool;
  getErr : option error;
  pingErr : option error;
}.

#[export] Instance mockStore_Storage : Storage mockStore := {
  ReserveCode m _ _ := ((reserveOK m, None), m);
  AttachCipher m _ _ _ := ((attachOK m, attachErr m), m);
  GetAndDelete m _ := ((getVal m, getOK m, getErr m), m);
  Ping m := (pingErr m, m);
}.

(** *** A store that records the calls made on it

    [Traced S] runs every operation on the store [inner] and appends the
    call to [calls]; it tells which operations a handler invoked, in which
    order and with which arguments. *)
Inductive Call :=
| CallReserveCode (code : string) (ttl : Z)
| CallAttachCipher (code ciphertext : string) (ttl : Z)
| CallGetAndDelete (code : string)
| CallPing.

Record Traced (S : Type) := {
  inner : S;
  calls : list Call;
}.
Arguments inner {S} _.
Arguments calls {S} _.

Definition traced {S A} (c : Call) (t : Traced S) (res : A * S) : A * Traced S :=
  (fst res, {| inner := snd res; calls := calls t ++ [c] |}).

#[export] Instance Traced_Storage {S} `{!Storage S} : Storage (Traced S) := {
  ReserveCode t code ttl :=
    traced (CallReserveCode code ttl) t (ReserveCode (inner t) code ttl);
  AttachCipher t code ct ttl :=
    traced (CallAttachCipher code ct ttl) t (AttachCipher (inner t) code ct ttl);
  GetAndDelete t code :=
    traced (CallGetAndDelete code) t (GetAndDelete (inner t) code);
  Ping t := traced CallPing t (Ping (inner t));
}.

(** *** An in-memory store with expiry *)

(** Modelled from the spec: the message record of the data model, which the
    absent package [internal/storage] implements. A record is a
    placeholder or holds the attached payload; both carry the instant at
    which they expire. *)
Inductive Record_ :=
| Placeholder (expires : Z)
| Attached (payload : string) (expires : Z).

(** Modelled from the spec: the state of the absent store, the records by
    code and the store's clock. *)
Record MemStore := {
  records : gmap string Record_;
  now : Z;
}.

Definition expiry (r : Record_) : Z :=
  match r with Placeholder e => e | Attached _ e => e end.

(** Modelled from the spec: a record is gone once its TTL has elapsed;
    nothing sweeps, the look-up ignores dead records. *)
Definition live (st : MemStore) (code : string) : option Record_ :=
  match records st !! code with
  | Some r => if now st <? expiry r then Some r else None
  | None => None
  end.

(** Modelled from the spec: [reserve_code(code, ttl)] of the absent store
    creates a placeholder iff no record exists for [code]; a collision is
    [false], not an error. *)
Definition reserve_code (st : MemStore) (code : string) (ttl : Z)
  : (bool * option error) * MemStore :=
  match live st code with
  | Some _ => ((false, None), st)
  | None =>
    ((true, None),
     {| records := <[code := Placeholder (now st + ttl)]> (records st);
        now := now st |})
  end.

(** Modelled from the spec: [attach_cipher(code, payload, ttl)] of the
    absent store turns a placeholder into an attached record and resets
    its TTL; on an unknown or already attached code it returns [false] and
    mutates nothing. *)
Definition attach_cipher (st : MemStore) (code payload : string) (ttl : Z)
  : (bool * option error) * MemStore :=
  match live st code with
  | Some (Placeholder _) =>
    ((true, None),
     {| records := <[code := Attached payload (now st + ttl)]> (records st);
        now := now st |})
  | _ => ((false, None), st)
  end.

(** Modelled from the spec: [get_and_delete(code)] of the absent store reads
    and removes the attached record in one step; [found = false] when the
    record is absent, expired or still a placeholder. *)
Definition get_and_delete (st : MemStore) (code : string)
  : (string * bool * option error) * MemStore :=
  match live st code with
  | Some (Attached payload _) =>
    ((payload, true, None),
     {| records := delete code (records st); now := now st |})
  | _ => (("", false, None), st)
  end.

(** Modelled from the spec: [ping()] of the absent store, free of side
    effects. *)
Definition ping (st : MemStore) : option error * MemStore := (None, st).

#[export] Instance MemStore_Storage : Storage MemStore := {
  ReserveCode := reserve_code;
  AttachCipher := attach_cipher;
  GetAndDelete := get_and_delete;
  Ping := ping;
}.

(** Modelled from the spec: time passing in the absent store, by [d >= 0]. *)
Definition advance (d : Z) (st : MemStore) : MemStore :=
  {| records := records st; now := now st + Z.max 0 d |}.

Definition empty : MemStore := {| records := ∅; now := 0 |}.

End Storage.

(* ===================================================================== *)
(** ** internal/server: configuration, handlers, routing *)
(* ===================================================================== *)

Module Server.
Import Strings HTTP Storage.

Record Config := {
  Addr : string;
  PlaceholderTTL : Z;
  MessageTTL : Z;
  ReadTimeout : Z;
  ReadHeaderTimeout : Z;
  WriteTimeout : Z;
  IdleTimeout : Z;
  MaxBodyBytes : Z;
}.

(** The immutable part of [Server]: the configuration and whether a logger
    is installed ([s.log != nil]). The store is mutable and lives in the
    [World]; the router is [New] below. *)
Record Server := {
  cfg : Config;
  log : bool;
}.

Section Handlers.
Context {S : Type} `{!Storage S}.

(** [crypto/rand.Reader]: the [k]-th value the process draws from it. *)
Variable Reader : nat -> Z.
Variable s : Server.

(** Everything a handler can change besides its response: the store, the
    number of values drawn from [Reader], and the calls made on the
    logger. *)
Record World := {
  store : S;
  drawn : nat;
  logged : list Log.Entry;
}.

(** Handlers are written in a state monad over the response writer and
    the world. *)
Definition M (A : Type) : Type :=
  ResponseWriter * World -> A * (ResponseWriter * World).

Definition ret {A} (a : A) : M A := fun σ => (a, σ).
Definition bind {A B} (m : M A) (k : A -> M B) : M B :=
  fun σ => let '(a, σ') := m σ in k a σ'.

Notation "'let*' x ':=' m 'in' k" := (bind m (fun x => k))
  (at level 10, x pattern, m at level 100, k at level 200).
Notation "m ;; k" := (bind m (fun _ => k))
  (at level 100, right associativity).

(** A method call on [w]. *)
Definition onWriter (f : ResponseWriter -> ResponseWriter) : M unit :=
  fun '(w, σ) => (tt, (f w, σ)).

(** A method call on [s.store]. *)
Definition onStore {A} (op : S -> A * S) : M A :=
  fun '(w, σ) =>
    let '(a, st) := op (store σ) in
    (a, (w, {| store := st; drawn := drawn σ; logged := logged σ |})).

(** [rand.Int(rand.Reader, max)]: a value in [[0, max)]. *)
Definition rand_Int (max : Z) : M Z :=
  fun '(w, σ) =>
    (Reader (drawn σ) mod max,
     (w, {| store := store σ; drawn := Datatypes.S (drawn σ);
            logged := logged σ |})).

(** [if s.log != nil { s.log.<Level>(msg, {"endpoint": endpoint}) }]. *)
Definition logIfSet (lv : Log.Level) (msg endpoint : string) : M unit :=
  fun '(w, σ) =>
    if log s then
      (tt, (w, {| store := store σ; drawn := drawn σ;
                  logged := logged σ ++
                    [{| Log.level := lv; Log.msg := msg;
                        Log.endpoint := endpoint |}] |}))
    else (tt, (w, σ)).

(** [secHeaders]. *)
Definition secHeaders : M unit :=
  onWriter (Header_Set "Referrer-Policy" "no-referrer") ;;
  onWriter (Header_Set "Cache-Control" "no-store") ;;
  onWriter (Header_Set "X-Content-Type-Options" "nosniff") ;;
  onWriter (Header_Set "Pragma" "no-cache").

Definition letters : string :=
  "ABCDEFGHJKLMNPQRSTUVWXYZabcdefghijkmnopqrstuvwxyz23456789".

(** [letters[idx]]. *)
Definition letterAt (idx : Z) : ascii :=
  match String.get (Z.to_nat idx) letters with
  | Some c => c
  | None => "000"%char
  end.

(** [generateCode(n)]: [n] letters, each drawn with [rand.Int]. *)
Fixpoint generateCode (n : nat) : M string :=
  match n with
  | O => ret EmptyString
  | Datatypes.S n' =>
    let* idx := rand_Int (Z.of_nat (String.length letters)) in
    let* rest := generateCode n' in
    ret (String (letterAt idx) rest)
  end.

(** How one round of the [for] loop of [getCode] ends. *)
Inductive LoopExit :=
| Break (code : string)   (* [break]: the code is reserved *)
| Return.                 (* [return] after the 500 *)

(** The [for { ... }] of [getCode]. The loop has no bound in the source;
    [fuel] bounds the rounds here, and [None] says the loop was still
    running when the fuel ran out. *)
Fixpoint getCode_loop (fuel : nat) : M (option LoopExit) :=
  match fuel with
  | O => ret None
  | Datatypes.S fuel' =>
    let* code := generateCode 8 in
    let* (ok, err) := onStore (fun st => ReserveCode st code (PlaceholderTTL (cfg s))) in
    match err with
    | Some _ =>
      logIfSet Log.Error "reserve_code_error" "code" ;;
      onWriter (WriteHeader StatusInternalServerError) ;;
      ret (Some Return)
    | None =>
      if ok then ret (Some (Break code)) else getCode_loop fuel'
    end
  end.

Definition quote : string := String "034"%char EmptyString.
Definition newline : string := String "010"%char EmptyString.

(** [json.NewEncoder(w).Encode(map[string]string{"code": code})]: one
    object and a line feed; the letters of a code need no escaping. *)
Definition encodeCode (code : string) : string :=
  "{" +:+ quote +:+ "code" +:+ quote +:+ ":" +:+ quote +:+ code +:+ quote
      +:+ "}" +:+ newline.

(** [getCode]. The result is [false] when the loop ran out of fuel. *)
Definition getCode (fuel : nat) (r : Request) : M bool :=
  if negb (String.eqb (Method r) MethodGet) then
    onWriter (WriteHeader StatusMethodNotAllowed) ;;
    ret true
  else
    secHeaders ;;
    let* exit := getCode_loop fuel in
    match exit with
    | None => ret false
    | Some Return => ret true
    | Some (Break code) =>
      onWriter (Header_Set "Content-Type" "application/json") ;;
      onWriter (Write (encodeCode code)) ;;
      ret true
    end.

(** The local [max] of [putMessage]: [s.cfg.MaxBodyBytes], or [1 << 20]
    when that is not positive. *)
Definition bodyLimit : Z :=
  let max := MaxBodyBytes (cfg s) in
  if max <=? 0 then Z.shiftl 1 20 else max.

(** [putMessage]. *)
Definition putMessage (r : Request) : M unit :=
  secHeaders ;;
  let code := TrimPrefix (Path r) "/message/" in
  match ReadAll (Body r) bodyLimit with
  | None =>
    logIfSet Log.Warn "body_read_error" "message_put" ;;
    onWriter (WriteHeader StatusBadRequest)
  | Some body =>
    let ct := TrimSpace body in
    if String.eqb ct "" then
      logIfSet Log.Warn "empty_body" "message_put" ;;
      onWriter (WriteHeader StatusBadRequest)
    else
      let* (ok, err) := onStore (fun st => AttachCipher st code ct (MessageTTL (cfg s))) in
      match err with
      | Some _ =>
        logIfSet Log.Error "attach_cipher_error" "message_put" ;;
        onWriter (WriteHeader StatusInternalServerError)
      | None =>
        if negb ok then
          logIfSet Log.Warn "attach_conflict" "message_put" ;;
          onWriter (WriteHeader StatusConflict)
        else onWriter (WriteHeader StatusNoContent)
      end
  end.

(** [getMessage]. *)
Definition getMessage (r : Request) : M unit :=
  secHeaders ;;
  let code := TrimPrefix (Path r) "/message/" in
  let* (ct, ok, err) := onStore (fun st => GetAndDelete st code) in
  match err with
  | Some _ =>
    logIfSet Log.Error "get_delete_error" "message_get" ;;
    onWriter (WriteHeader StatusInternalServerError)
  | None =>
    if negb ok then onWriter (WriteHeader StatusNotFound)
    else
      onWriter (Header_Set "Content-Type" "text/plain") ;;
      onWriter (Write ct)
  end.

(** [message]. *)
Definition message (r : Request) : M unit :=
  if negb (HasPrefix (Path r) "/message/") then
    onWriter (WriteHeader StatusNotFound)
  else if String.eqb (Method r) MethodPut then putMessage r
  else if String.eqb (Method r) MethodGet then getMessage r
  else onWriter (WriteHeader StatusMethodNotAllowed).

(** The function literal registered for [/health]. *)
Definition health (r : Request) : M unit :=
  secHeaders ;; onWriter (WriteHeader StatusOK).

(** [validBase64]. *)
Definition base64Byte (c : Z) : bool :=
  ((65 <=? c) && (c <=? 90)) || ((97 <=? c) && (c <=? 122))
  || ((48 <=? c) && (c <=? 57)) || (c =? 43) || (c =? 47) || (c =? 61).

Fixpoint allBase64 (str : string) : bool :=
  match str with
  | EmptyString => true
  | String c t => if base64Byte (byteZ c) then allBase64 t else false
  end.

Definition validBase64 (str : string) : bool :=
  if (String.length str =? 0)%nat then false else allBase64 str.

(** *** [New]: the routing table *)

Definition Handler : Type := nat -> Request -> M bool.

(** [New]: the patterns registered on the mux, with their handlers. *)
Definition New : list (string * Handler) :=
  [ ("/code", getCode);
    ("/message/", fun _ r => message r ;; ret true);
    ("/health", fun _ r => health r ;; ret true) ].

(** [strings.Split(p, "/")]. *)
Fixpoint splitSlash (p : string) : list string :=
  match p with
  | EmptyString => [EmptyString]
  | String c t =>
    if Ascii.eqb c "/"%char then EmptyString :: splitSlash t
    else match splitSlash t with
         | h :: tl => String c h :: tl
         | [] => [String c EmptyString]
         end
  end.

Definition dotSegment (seg : string) : bool :=
  String.eqb seg "." || String.eqb seg "..".

Fixpoint cleanSegments (segs : list string) : bool :=
  match segs with
  | [] => false
  | [last] => negb (dotSegment last)
  | seg :: more =>
    negb (String.eqb seg "") && negb (dotSegment seg) && cleanSegments more
  end.

(** The mux hands a request to a registered handler only when its path
    is already clean: rooted, without empty, [.] or [..] segments (a
    trailing slash apart). Any other path it answers itself with a
    redirect. *)
Definition pathIsClean (p : string) : bool :=
  match splitSlash p with
  | first :: rest => String.eqb first "" && cleanSegments rest
  | [] => false
  end.

(** A pattern ending in a slash names a subtree, any other pattern
    exactly one path. *)
Definition matches (pattern p : string) : bool :=
  if String.eqb (sliceFrom (String.length pattern - 1) pattern) "/"
  then HasPrefix p pattern
  else String.eqb pattern p.

Fixpoint findHandler (table : list (string * Handler)) (p : string)
  : option Handler :=
  match table with
  | [] => None
  | (pattern, h) :: table' =>
    if matches pattern p then Some h else findHandler table' p
  end.

(** What serving one request comes to: a handler of the server ran and
    returned ([Replied]); no handler of the server ran and the mux answered
    on its own ([Unrouted]); or the retry loop of [getCode] was still
    running when the fuel ran out ([Spinning]). *)
Inductive Served :=
| Replied (resp : Response) (σ : World)
| Unrouted
| Spinning.

(** The response of a request that was answered, and the world it
    left ([σ] itself when no handler returned). *)
Definition replyOf (served : Served) : option Response :=
  match served with Replied resp _ => Some resp | _ => None end.
Definition worldOf (σ : World) (served : Served) : World :=
  match served with Replied _ σ' => σ' | _ => σ end.

(** [s.Handler().ServeHTTP(httptest.NewRecorder(), r)] in world [σ]. *)
Definition ServeHTTP (fuel : nat) (r : Request) (σ : World) : Served :=
  if negb (pathIsClean (Path r)) then Unrouted
  else
    match findHandler New (Path r) with
    | None => Unrouted
    | Some h =>
      let '(returned, (w, σ')) := h fuel r (NewRecorder, σ) in
      if returned : bool then Replied (finish w) σ' else Spinning
    end.

(** A handler run on a fresh writer: the response the client gets and
    the world it leaves. *)
Definition exec (h : M unit) (σ : World) : Response * World :=
  let '(_, (w, σ')) := h (NewRecorder, σ) in (finish w, σ').

(** *** The reservation algorithm, as the design document words it *)

(** The candidate code made of the eight values drawn from position [k]
    on. *)
Fixpoint lettersFrom (k n : nat) : string :=
  match n with
  | O => EmptyString
  | Datatypes.S n' =>
    String (letterAt (Reader k mod Z.of_nat (String.length letters)))
           (lettersFrom (Datatypes.S k) n')
  end.
Definition candidate (k : nat) : string := lettersFrom k 8.

(** The header map after [secHeaders] on a fresh writer. *)
Definition secured : gmap string string :=
  <["Pragma" := "no-cache"]>
    (<["X-Content-Type-Options" := "nosniff"]>
       (<["Cache-Control" := "no-store"]>
          (<["Referrer-Policy" := "no-referrer"]> ∅))).

(** What the caller is told: the code on success, a server-side failure
    and no code otherwise. *)
Definition reservationReply (out : option string) : Response :=
  match out with
  | Some code =>
    {| Status := StatusOK;
       Headers := <["Content-Type" := "application/json"]> secured;
       Payload := encodeCode code |}
  | None =>
    {| Status := StatusInternalServerError; Headers := secured;
       Payload := "" |}
  end.

(** What the logger is told: the failure, when there is a logger. *)
Definition reservationLog (out : option string) : list Log.Entry :=
  match out with
  | Some _ => []
  | None =>
    if log s then
      [{| Log.level := Log.Error; Log.msg := "reserve_code_error";
          Log.endpoint := "code" |}]
    else []
  end.

(** How the loop of [getCode] is left for a given result, and the writer
    it leaves. *)
Definition loopExit (out : option string) : LoopExit :=
  match out with Some code => Break code | None => Return end.
Definition loopWriter (out : option string) (w : ResponseWriter)
  : ResponseWriter :=
  match out with
  | Some _ => w
  | None => WriteHeader StatusInternalServerError w
  end.

(** [reserves st k out st' k']: started on store [st] with [k] values
    drawn, the algorithm of the design document ends on store [st'] with
    [k'] values drawn and hands out [out]. It generates a candidate and
    calls [reserve_code] with the placeholder TTL; on success the
    candidate is the result; on a storage error it gives up with no
    code; on a collision it starts over with a fresh candidate. *)
Inductive reserves : S -> nat -> option string -> S -> nat -> Prop :=
| reserves_success st k st' :
    ReserveCode st (candidate k) (PlaceholderTTL (cfg s)) = ((true, None), st') ->
    reserves st k (Some (candidate k)) st' (k + 8)
| reserves_failure st k ok e st' :
    ReserveCode st (candidate k) (PlaceholderTTL (cfg s)) = ((ok, Some e), st') ->
    reserves st k None st' (k + 8)
| reserves_retry st k st' out st'' k'' :
    ReserveCode st (candidate k) (PlaceholderTTL (cfg s)) = ((false, None), st') ->
    reserves st' (k + 8) out st'' k'' ->
    reserves st k out st'' k''.

End Handlers.

Arguments World S : clear implicits.
Arguments Served S : clear implicits.
Arguments Replied {S} resp σ.
Arguments Unrouted {S}.
Arguments Spinning {S}.
Arguments replyOf {S} served.
Arguments worldOf {S} σ served.

End Server.

(* ===================================================================== *)
(** ** Runs of the server over the in-memory store *)
(* ===================================================================== *)

Module Lifecycle.
Import Strings HTTP Storage Server.

(** What happens to a running server: a request arrives (its reservation
    loop is followed for [fuel] rounds), or time passes. *)
Inductive Event :=
| Arrives (fuel : nat) (r : Request)
| Elapses (d : Z).

Definition elapse (d : Z) (σ : World MemStore) : World MemStore :=
  {| store := advance d (store σ); drawn := drawn σ; logged := logged σ |}.

Section Runs.
Variable Reader : nat -> Z.
Variable s : Server.

(** One event: the exchange it adds to the transcript, if a handler
    answered, and the next world. [None] when the reservation loop does
    not come back within its fuel. *)
Definition step (σ : World MemStore) (e : Event)
  : option (list (Request * Response) * World MemStore) :=
  match e with
  | Elapses d => Some ([], elapse d σ)
  | Arrives fuel r =>
    match ServeHTTP Reader s fuel r σ with
    | Replied resp σ' => Some ([(r, resp)], σ')
    | Unrouted => Some ([], σ)
    | Spinning => None
    end
  end.

(** A sequence of events, served one after the other. *)
Fixpoint run (evs : list Event) (σ : World MemStore)
  : option (list (Request * Response) * World MemStore) :=
  match evs with
  | [] => Some ([], σ)
  | e :: evs' =>
    match step σ e with
    | None => None
    | Some (xs, σ1) =>
      match run evs' σ1 with
      | None => None
      | Some (ys, σ2) => Some (xs ++ ys, σ2)
      end
    end
  end.

(** The exchange is a reservation that handed out [code]. *)
Definition handsOut (code : string) (x : Request * Response) : Prop :=
  Path (fst x) = "/code" /\ Status (snd x) = StatusOK
  /\ Payload (snd x) = encodeCode code.

End Runs.

End Lifecycle.

(* ===================================================================== *)
(** ** The fixtures of [server_test.go] *)
(* ===================================================================== *)

Module Fixtures.
Import HTTP Storage Server.

Definition Minute : Z := 60 * 1000000000.
Definition Hour : Z := 60 * Minute.

(** [newTestServer]: [Config{Addr: ":0", PlaceholderTTL: time.Minute,
    MessageTTL: time.Hour}] and a logger that drops what it is told. *)
Definition testConfig : Config :=
  {| Addr := ":0"; PlaceholderTTL := Minute; MessageTTL := Hour;
     ReadTimeout := 0; ReadHeaderTimeout := 0; WriteTimeout := 0;
     IdleTimeout := 0; MaxBodyBytes := 0 |}.

Definition newTestServer : Server := {| cfg := testConfig; log := true |}.

(** A server whose configuration caps request bodies at eight bytes. *)
Definition cappedServer : Server :=
  {| cfg := {| Addr := ":0"; PlaceholderTTL := Minute; MessageTTL := Hour;
               ReadTimeout := 0; ReadHeaderTimeout := 0; WriteTimeout := 0;
               IdleTimeout := 0; MaxBodyBytes := 8 |};
     log := true |}.

(** [&mockStore{}], every field at its zero value. *)
Definition zeroMock : mockStore :=
  {| reserveOK := false; attachOK := false; attachErr := None;
     getVal := ""; getOK := false; getErr := None; pingErr := None |}.

(** [&mockStore{reserveOK: true}]. *)
Definition reservingMock : mockStore :=
  {| reserveOK := true; attachOK := false; attachErr := None;
     getVal := ""; getOK := false; getErr := None; pingErr := None |}.

(** [&mockStore{attachOK: true}]. *)
Definition attachingMock : mockStore :=
  {| reserveOK := false; attachOK := true; attachErr := None;
     getVal := ""; getOK := false; getErr := None; pingErr := None |}.

(** [&mockStore{getVal: "abc", getOK: true}]. *)
Definition holdingMock : mockStore :=
  {| reserveOK := false; attachOK := false; attachErr := None;
     getVal := "abc"; getOK := true; getErr := None; pingErr := None |}.

(** A server that has just started on store [st]. *)
Definition boot {S} (st : S) : World S :=
  {| store := st; drawn := 0; logged := [] |}.

(** [httptest.NewRequest(method, path, strings.NewReader(body))]. *)
Definition NewRequest (method path body : string) : Request :=
  {| Method := method; Path := path; Body := body |}.

(** Two entropy sources: one that yields 0 for ever, one that counts. *)
Definition zeros : nat -> Z := fun _ => 0.
Definition counting : nat -> Z := Z.of_nat.

End Fixtures.

(* ===================================================================== *)
(** ** internal/log: the JSON logger *)
(* ===================================================================== *)

Module AppLog.
Import Strings.

(** [type Level int], with the four constants of the [iota] block. *)
Definition Level : Type := Z.
Definition Debug : Level := 0.
Definition Info : Level := 1.
Definition Warn : Level := 2.
Definition Error : Level := 3.

Record JSONLogger := { level : Level }.

(** [levelString]. *)
Definition levelString (lv : Level) : string :=
  if lv =? Debug then "debug"
  else if lv =? Info then "info"
  else if lv =? Warn then "warn"
  else if lv =? Error then "error"
  else "info".

(** The ASCII path of [strings.ToLower]: the string is returned as it is
    when it has no upper-case letter, and with every [A]..[Z] moved to
    [a]..[z] otherwise. *)
Definition isUpper (c : Z) : bool := (65 <=? c) && (c <=? 90).

Fixpoint isASCII (str : string) : bool :=
  match str with
  | EmptyString => true
  | String c t => (byteZ c <? RuneSelf) && isASCII t
  end.

Fixpoint hasUpper (str : string) : bool :=
  match str with
  | EmptyString => false
  | String c t => isUpper (byteZ c) || hasUpper t
  end.

Definition lowerByte (c : ascii) : ascii :=
  if isUpper (byteZ c) then ascii_of_N (N_of_ascii c + 32) else c.

Fixpoint lowerBytes (str : string) : string :=
  match str with
  | EmptyString => EmptyString
  | String c t => String (lowerByte c) (lowerBytes t)
  end.

Definition lineFeed : string := String "010"%char EmptyString.

Section Package.

(** [strings.Map(unicode.ToLower, s)], which [strings.ToLower] computes for
    a string with a byte outside ASCII; the Unicode tables are not part of
    the repository. *)
Variable MapToLower : string -> string.

(** The values of a [map[string]any], with the conversion of a [string] to
    [any]. *)
Variable any : Type.
Variable box : string -> any.

(** [json.Marshal] on a [map[string]any]: the bytes, or [None] for the [nil]
    slice it returns with an error. *)
Variable Marshal : gmap string any -> option string.

(** [strings.ToLower]. *)
Definition ToLower (str : string) : string :=
  if isASCII str then (if hasUpper str then lowerBytes str else str)
  else MapToLower str.

(** [New]. *)
Definition New (levelStr : string) : JSONLogger :=
  let l := ToLower levelStr in
  if String.eqb l "debug" then {| level := Debug |}
  else if String.eqb l "warn" then {| level := Warn |}
  else if String.eqb l "error" then {| level := Error |}
  else {| level := Info |}.

(** The map [m] of [log] once the fields have been copied into it: a field
    takes the place of an entry with the same key. [now] is
    [time.Now().UTC().Format(time.RFC3339Nano)]. *)
Definition record (now : string) (lv : Level) (msg : string)
  (fields : gmap string any) : gmap string any :=
  fields ∪ <["ts" := box now]>
             (<["level" := box (levelString lv)]>
                (<["msg" := box msg]> ∅)).

(** [log]: [stderr] is what has been written to [os.Stderr], one element
    for each [Write]. *)
Definition log (l : JSONLogger) (now : string) (lv : Level) (msg : string)
  (fields : gmap string any) (stderr : list string) : list string :=
  if lv <? level l then stderr
  else
    stderr ++ [default EmptyString (Marshal (record now lv msg fields))
               +:+ lineFeed].

(** The four methods of [Logger]. *)
Definition JSONLogger_Debug (l : JSONLogger) (now msg : string)
  (fields : gmap string any) (stderr : list string) : list string :=
  log l now Debug msg fields stderr.
Definition JSONLogger_Info (l : JSONLogger) (now msg : string)
  (fields : gmap string any) (stderr : list string) : list string :=
  log l now Info msg fields stderr.
Definition JSONLogger_Warn (l : JSONLogger) (now msg : string)
  (fields : gmap string any) (stderr : list string) : list string :=
  log l now Warn msg fields stderr.
Definition JSONLogger_Error (l : JSONLogger) (now msg : string)
  (fields : gmap string any) (stderr : list string) : list string :=
  log l now Error msg fields stderr.

(** A call the server makes on its logger, when the logger is a
    [JSONLogger]: [s.log.<Level>(msg, map[string]any{"endpoint": endpoint})]. *)
Definition serverCall (l : JSONLogger) (now : string) (e : Log.Entry)
  (stderr : list string) : list string :=
  let fields : gmap string any := {[ "endpoint"%string := box (Log.endpoint e) ]} in
  match Log.level e with
  | Log.Debug => JSONLogger_Debug l now (Log.msg e) fields stderr
  | Log.Info => JSONLogger_Info l now (Log.msg e) fields stderr
  | Log.Warn => JSONLogger_Warn l now (Log.msg e) fields stderr
  | Log.Error => JSONLogger_Error l now (Log.msg e) fields stderr
  end.

End Package.

End AppLog.

(* ===================================================================== *)
(** ** The alphabet of the codes *)
(* ===================================================================== *)

Module Alphabet.

(** The byte is one of [letters]. *)
Definition inLetters (c : ascii) : bool :=
  existsb (Ascii.eqb c) (list_ascii_of_string Server.letters).

(** Every byte of the string is one of [letters]. *)
Fixpoint allLetters (code : string) : bool :=
  match code with
  | EmptyString => true
  | String c t => inLetters c && allLetters t
  end.

(** The characters the alphabet leaves out because they are easily
    mistaken for one another. *)
Definition confusable : string := "0O1lI".

(** The byte is a digit or a letter of ASCII. *)
Definition alphanumeric (c : ascii) : bool :=
  let b := Strings.byteZ c in
  ((48 <=? b) && (b <=? 57)) || ((65 <=? b) && (b <=? 90))
  || ((97 <=? b) && (b <=? 122)).

End Alphabet.

(* ===================================================================== *)
(** ** Shorthands for the outcome of a handler *)
(* ===================================================================== *)

Module Outcome.
Import HTTP Server.

(** The world with its store replaced. *)
Definition withStore {S : Type} (st : S) (σ : World S) : World S :=
  {| store := st; drawn := drawn σ; logged := logged σ |}.

(** The world after [if s.log != nil { s.log.<Level>(msg, ...) }]. *)
Definition noted {S : Type} (s : Server) (lv : Log.Level)
  (msg endpoint : string) (σ : World S) : World S :=
  if log s then
    {| store := store σ; drawn := drawn σ;
       logged := logged σ ++ [{| Log.level := lv; Log.msg := msg;
                                 Log.endpoint := endpoint |}] |}
  else σ.

(** A response with no body: after [secHeaders], and before it. *)
Definition plain (status : Z) : Response :=
  {| Status := status; Headers := secured; Payload := "" |}.
Definition bare (status : Z) : Response :=
  {| Status := status; Headers := ∅; Payload := "" |}.

(** The 200 of [getMessage]. *)
Definition delivered (ct : string) : Response :=
  {| Status := StatusOK; Headers := <["Content-Type" := "text/plain"]> secured;
     Payload := ct |}.

End Outcome.

(* ===================================================================== *)
(** * Properties *)
(* ===================================================================== *)

Import Strings HTTP Storage Server Lifecycle Fixtures.
(* ===================================================================== *)
(** ** Facts about the string functions *)
(* ===================================================================== *)

Section StringFacts.
Import Strings.

Lemma length_substring (s : string) : forall n m : nat,
  String.length (substring n m s) = Nat.min m (String.length s - n).
Proof.
  induction s as [|c s IH]; intros n m.
  - destruct n, m; reflexivity.
  - destruct n as [|n].
    + destruct m as [|m]; simpl; [reflexivity|].
      rewrite IH. f_equal. f_equal. lia.
    + simpl. apply IH.
Qed.

Lemma substring_all (s : string) : substring 0 (String.length s) s = s.
Proof. induction s as [|c s IH]; simpl; [reflexivity | now rewrite IH]. Qed.

Lemma length_sliceFrom (i : nat) (s : string) :
  String.length (sliceFrom i s) = (String.length s - i)%nat.
Proof. unfold sliceFrom. rewrite length_substring. lia. Qed.

Lemma length_sliceTo (j : nat) (s : string) :
  String.length (sliceTo j s) = Nat.min j (String.length s).
Proof. unfold sliceTo. rewrite length_substring. f_equal. lia. Qed.

(** A trimming loop returns its argument or a strictly shorter string. *)
Lemma trimLeftLoop_shrinks (f : Z -> bool) (n : nat) : forall s : string,
  trimLeftLoop f n s = s
  \/ (String.length (trimLeftLoop f n s) < String.length s)%nat.
Proof.
  induction n as [|n IH]; intros s; simpl; [now left|].
  destruct (DecodeRuneInString s) as [r wid] eqn:E.
  destruct ((0 <? wid)%nat && f r) eqn:G; [|now left].
  apply andb_true_iff in G as [Hw _]. apply Nat.ltb_lt in Hw.
  destruct s as [|c s]; [simpl in E; inversion E; subst; lia|].
  right. specialize (IH (sliceFrom wid (String c s))).
  assert (String.length (sliceFrom wid (String c s)) < String.length (String c s))%nat
    by (rewrite length_sliceFrom; simpl; lia).
  destruct IH as [-> | IH]; lia.
Qed.

Lemma DecodeLastRuneInString_empty : DecodeLastRuneInString "" = (RuneError, 0%nat).
Proof. reflexivity. Qed.

Lemma trimRightLoop_shrinks (f : Z -> bool) (n : nat) : forall s : string,
  trimRightLoop f n s = s
  \/ (String.length (trimRightLoop f n s) < String.length s)%nat.
Proof.
  induction n as [|n IH]; intros s; simpl; [now left|].
  destruct (DecodeLastRuneInString s) as [r size] eqn:E.
  destruct ((0 <? size)%nat && f r) eqn:G; [|now left].
  apply andb_true_iff in G as [Hw _]. apply Nat.ltb_lt in Hw.
  destruct s as [|c s]; [rewrite DecodeLastRuneInString_empty in E; inversion E; subst; lia|].
  right. specialize (IH (sliceTo (String.length (String c s) - size) (String c s))).
  assert (String.length (sliceTo (String.length (String c s) - size) (String c s))
          < String.length (String c s))%nat
    by (rewrite length_sliceTo; simpl; lia).
  destruct IH as [-> | IH]; lia.
Qed.

Lemma TrimLeft_leadingSpace (s : string) :
  leadingSpace s = true ->
  (String.length (TrimLeftFunc s IsSpace) < String.length s)%nat.
Proof.
  unfold leadingSpace, TrimLeftFunc. intros H.
  destruct (DecodeRuneInString s) as [r wid] eqn:E.
  pose proof H as G. apply andb_true_iff in G as [Hw _]. apply Nat.ltb_lt in Hw.
  destruct s as [|c s]; [simpl in E; inversion E; subst; lia|].
  cbn [String.length trimLeftLoop]. rewrite E, H.
  pose proof (trimLeftLoop_shrinks IsSpace (String.length s) (sliceFrom wid (String c s))) as K.
  assert (String.length (sliceFrom wid (String c s)) < String.length (String c s))%nat
    by (rewrite length_sliceFrom; simpl; lia).
  cbn [String.length] in *. destruct K as [-> | K]; lia.
Qed.

Lemma TrimRight_trailingSpace (s : string) :
  trailingSpace s = true ->
  (String.length (TrimRightFunc s IsSpace) < String.length s)%nat.
Proof.
  unfold trailingSpace, TrimRightFunc. intros H.
  destruct (DecodeLastRuneInString s) as [r size] eqn:E.
  pose proof H as G. apply andb_true_iff in G as [Hw _]. apply Nat.ltb_lt in Hw.
  destruct s as [|c s]; [rewrite DecodeLastRuneInString_empty in E; inversion E; subst; lia|].
  remember (String c s) as t eqn:Ht.
  assert (Hl : String.length t = Datatypes.S (String.length s)) by (subst; reflexivity).
  rewrite Hl. cbn [trimRightLoop]. rewrite E, H.
  pose proof (trimRightLoop_shrinks IsSpace (String.length s)
                (sliceTo (String.length t - size) t)) as K.
  assert (String.length (sliceTo (String.length t - size) t) < String.length t)%nat
    by (rewrite length_sliceTo; lia).
  destruct K as [K | K]; [rewrite K|]; lia.
Qed.

(** Trimming changes every string that starts or ends with white space. *)
Lemma TrimSpace_changes (s : string) :
  leadingSpace s || trailingSpace s = true -> TrimSpace s <> s.
Proof.
  intros H E.
  assert (L : (String.length (TrimSpace s) < String.length s)%nat);
    [| rewrite E in L; lia].
  unfold TrimSpace, TrimFunc.
  pose proof (trimRightLoop_shrinks IsSpace (String.length (TrimLeftFunc s IsSpace))
                (TrimLeftFunc s IsSpace)) as R.
  fold (TrimRightFunc (TrimLeftFunc s IsSpace) IsSpace) in R.
  destruct (leadingSpace s) eqn:Hl.
  - apply TrimLeft_leadingSpace in Hl. destruct R as [-> | R]; lia.
  - simpl in H.
    pose proof (trimLeftLoop_shrinks IsSpace (String.length s) s) as Lf.
    fold (TrimLeftFunc s IsSpace) in Lf.
    destruct Lf as [Lf | Lf].
    + rewrite Lf. now apply TrimRight_trailingSpace.
    + destruct R as [-> | R]; lia.
Qed.

End StringFacts.

(* ===================================================================== *)
(** ** Facts about the handlers, for any store *)
(* ===================================================================== *)

Ltac unfold_handlers :=
  unfold Server.exec, Server.message, Server.putMessage, Server.getMessage,
    Server.health, Server.secHeaders, Server.logIfSet, Server.onWriter,
    Server.onStore, Server.bind, Server.ret in *.

Section HandlerFacts.
Import Strings HTTP Storage Server.
Context {S : Type} `{!Storage S}.
Variable s : Server.
Implicit Types (r g : Request) (σ : World S).

Lemma ReadAll_within (body : string) (max : Z) :
  Z.of_nat (String.length body) <= max -> ReadAll body max = Some body.
Proof. intros H. unfold ReadAll. now rewrite (proj2 (Z.leb_le _ _) H). Qed.

(** The rejection of an empty payload. *)
Lemma put_empty r σ :
  Method r = MethodPut -> HasPrefix (Path r) "/message/" = true ->
  TrimSpace (Body r) = ""%string ->
  Status (fst (exec (message s r) σ)) = StatusBadRequest
  /\ store (snd (exec (message s r) σ)) = store σ
  /\ drawn (snd (exec (message s r) σ)) = drawn σ.
Proof.
  intros Hm Hp Ht. unfold_handlers. rewrite Hp, Hm. simpl.
  unfold ReadAll. destruct (_ <=? _).
  - rewrite Ht. simpl. destruct (log s); simpl; auto.
  - destruct (log s); simpl; auto.
Qed.

(** A payload that passes validation: the one call to [AttachCipher]
    decides the response and the next store. *)
Lemma put_attach r σ :
  Method r = MethodPut -> HasPrefix (Path r) "/message/" = true ->
  Z.of_nat (String.length (Body r)) <= bodyLimit s ->
  TrimSpace (Body r) <> ""%string ->
  let out := exec (message s r) σ in
  let res := AttachCipher (store σ) (TrimPrefix (Path r) "/message/")
               (TrimSpace (Body r)) (MessageTTL (cfg s)) in
  store (snd out) = snd res
  /\ Payload (fst out) = ""%string
  /\ Status (fst out) =
     match fst res with
     | (_, Some _) => StatusInternalServerError
     | (true, None) => StatusNoContent
     | (false, None) => StatusConflict
     end.
Proof.
  intros Hm Hp Hl Ht. unfold_handlers. rewrite Hp, Hm. simpl.
  rewrite (ReadAll_within _ _ Hl).
  apply String.eqb_neq in Ht. rewrite Ht.
  destruct (AttachCipher _ _ _ _) as [[ok [e|]] st]; simpl;
    destruct ok, (log s); simpl; auto.
Qed.

(** Retrieval: the one call to [GetAndDelete] decides the response and the
    next store. *)
Lemma get_lookup g σ :
  Method g = MethodGet -> HasPrefix (Path g) "/message/" = true ->
  let out := exec (message s g) σ in
  let res := GetAndDelete (store σ) (TrimPrefix (Path g) "/message/") in
  store (snd out) = snd res
  /\ drawn (snd out) = drawn σ
  /\ Status (fst out) =
     match fst res with
     | (_, _, Some _) => StatusInternalServerError
     | (_, true, None) => StatusOK
     | (_, false, None) => StatusNotFound
     end
  /\ Payload (fst out) =
     match fst res with
     | (ct, true, None) => ct
     | _ => ""%string
     end
  /\ (Status (fst out) = StatusOK ->
      Headers (fst out) !! "Content-Type"%string = Some "text/plain"%string).
Proof.
  intros Hm Hp. unfold_handlers. rewrite Hp, Hm. simpl.
  destruct (GetAndDelete _ _) as [[[ct ok] [e|]] st]; simpl;
    destruct ok, (log s); simpl; repeat split; auto; discriminate.
Qed.

(** What [message] answers, and the store it leaves, depend on the world
    through the store only. *)
Lemma message_reads_store_only r σ1 σ2 :
  store σ1 = store σ2 ->
  fst (exec (message s r) σ1) = fst (exec (message s r) σ2)
  /\ store (snd (exec (message s r) σ1)) = store (snd (exec (message s r) σ2)).
Proof.
  intros E. unfold_handlers.
  destruct (negb (HasPrefix (Path r) "/message/")); [now simpl|].
  destruct (String.eqb (Method r) MethodPut).
  - simpl. destruct (ReadAll _ _) as [body|]; simpl.
    + destruct (String.eqb (TrimSpace body) ""); simpl.
      * destruct (log s); simpl; auto.
      * rewrite E. destruct (AttachCipher _ _ _ _) as [[ok [e|]] st]; simpl.
        -- destruct (log s); simpl; auto.
        -- destruct ok; simpl; auto. destruct (log s); simpl; auto.
    + destruct (log s); simpl; auto.
  - destruct (String.eqb (Method r) MethodGet); [|now simpl].
    simpl. rewrite E. destruct (GetAndDelete _ _) as [[[ct ok] [e|]] st]; simpl.
    + destruct (log s); simpl; auto.
    + destruct ok; simpl; auto.
Qed.

End HandlerFacts.

(* ===================================================================== *)
(** ** Facts about the in-memory store *)
(* ===================================================================== *)

Section MemStoreFacts.
Import Storage.
Implicit Types (st : MemStore) (code : string).

Lemma attach_cipher_conflict st code ct ttl :
  fst (fst (attach_cipher st code ct ttl)) = false ->
  snd (attach_cipher st code ct ttl) = st.
Proof.
  unfold attach_cipher. destruct (live st code) as [[e|p e]|]; simpl; auto.
  discriminate.
Qed.

Lemma attach_cipher_success st code ct ttl :
  fst (fst (attach_cipher st code ct ttl)) = true ->
  snd (attach_cipher st code ct ttl)
  = {| records := <[code := Attached ct (now st + ttl)]> (records st);
       now := now st |}.
Proof.
  unfold attach_cipher. destruct (live st code) as [[e|p e]|]; simpl; auto;
    discriminate.
Qed.

Lemma reserve_code_no_error st code ttl :
  snd (fst (reserve_code st code ttl)) = None.
Proof. unfold reserve_code. now destruct (live st code). Qed.

Lemma get_and_delete_no_error st code :
  snd (fst (get_and_delete st code)) = None.
Proof. unfold get_and_delete. now destruct (live st code) as [[e|p e]|]. Qed.

(** [get_and_delete] finds exactly the live attached records. *)
Lemma get_and_delete_found st code :
  snd (fst (fst (get_and_delete st code))) = true
  <-> exists e, live st code = Some (Attached (fst (fst (fst (get_and_delete st code)))) e).
Proof.
  unfold get_and_delete. destruct (live st code) as [[e|p e]|]; simpl; split;
    try discriminate; try (intros [? ?]; discriminate); eauto.
Qed.

Lemma get_and_delete_not_found st code :
  snd (fst (fst (get_and_delete st code))) = false
  <-> forall p e, live st code <> Some (Attached p e).
Proof.
  unfold get_and_delete. destruct (live st code) as [[e|p e]|]; simpl; split;
    try discriminate; try congruence; auto.
  intros H. now contradiction (H p e).
Qed.

(** A found record is removed by the call that found it. *)
Lemma get_and_delete_removes st code :
  snd (fst (fst (get_and_delete st code))) = true ->
  records (snd (get_and_delete st code)) = delete code (records st)
  /\ now (snd (get_and_delete st code)) = now st.
Proof.
  unfold get_and_delete. destruct (live st code) as [[e|p e]|]; simpl; auto;
    discriminate.
Qed.

Lemma live_absent st code : records st !! code = None -> live st code = None.
Proof. unfold live. now intros ->. Qed.

End MemStoreFacts.

(* ===================================================================== *)
(** ** Routing *)
(* ===================================================================== *)

Section Routing.
Import Strings HTTP Storage Server.
Context {S : Type} `{!Storage S}.
Variable Reader : nat -> Z.
Variable s : Server.
Implicit Types (r : Request) (σ : World S).

(** The three routes of [New], in the order they are tried. *)
Lemma ServeHTTP_routes (fuel : nat) r σ :
  ServeHTTP Reader s fuel r σ
  = if negb (pathIsClean (Path r)) then Unrouted
    else if String.eqb "/code" (Path r) then
      let '(returned, (w, σ')) := getCode Reader s fuel r (NewRecorder, σ) in
      if returned : bool then Replied (finish w) σ' else Spinning
    else if HasPrefix (Path r) "/message/" then
      Replied (fst (exec (message s r) σ)) (snd (exec (message s r) σ))
    else if String.eqb "/health" (Path r) then
      Replied (fst (exec (health r) σ)) (snd (exec (health r) σ))
    else Unrouted.
Proof.
  unfold ServeHTTP. destruct (negb (pathIsClean (Path r))); [reflexivity|].
  cbn [New findHandler].
  change (matches "/code" (Path r)) with (String.eqb "/code" (Path r)).
  change (matches "/message/" (Path r)) with (HasPrefix (Path r) "/message/").
  change (matches "/health" (Path r)) with (String.eqb "/health" (Path r)).
  destruct (String.eqb "/code" (Path r)); [reflexivity|].
  destruct (HasPrefix (Path r) "/message/").
  - unfold exec, bind, ret.
    destruct (message s r (NewRecorder, σ)) as [[] [w σ']]. reflexivity.
  - destruct (String.eqb "/health" (Path r)); [|reflexivity].
    unfold exec, bind, ret.
    destruct (health r (NewRecorder, σ)) as [[] [w σ']]. reflexivity.
Qed.

Lemma message_path_is_not_code (p : string) :
  HasPrefix p "/message/" = true -> String.eqb "/code" p = false.
Proof.
  intros H. destruct (String.eqb_spec "/code" p) as [<-|]; [discriminate H | reflexivity].
Qed.

(** A request under [/message/] that is answered is answered by [message]. *)
Lemma ServeHTTP_message (fuel : nat) r σ resp σ' :
  HasPrefix (Path r) "/message/" = true ->
  ServeHTTP Reader s fuel r σ = Replied resp σ' ->
  pathIsClean (Path r) = true
  /\ resp = fst (exec (message s r) σ) /\ σ' = snd (exec (message s r) σ).
Proof.
  intros Hp H. rewrite ServeHTTP_routes in H.
  destruct (pathIsClean (Path r)); [|discriminate].
  rewrite (message_path_is_not_code _ Hp), Hp in H. cbn in H.
  inversion H. auto.
Qed.

Lemma ServeHTTP_message_clean (fuel : nat) r σ :
  HasPrefix (Path r) "/message/" = true -> pathIsClean (Path r) = true ->
  ServeHTTP Reader s fuel r σ
  = Replied (fst (exec (message s r) σ)) (snd (exec (message s r) σ)).
Proof.
  intros Hp Hc. rewrite ServeHTTP_routes, Hc, (message_path_is_not_code _ Hp), Hp.
  reflexivity.
Qed.

End Routing.

(* ===================================================================== *)
(** ** Attachment: [PUT /message/{code}] *)
(* ===================================================================== *)


(** C5: a [PUT /message/{code}] whose body is empty once the white space is
    trimmed is answered 400 whatever the store holds. The store the handler
    leaves is the store it found, for every implementation of the storage
    interface (so also for one that records its calls: none is made), and any
    request to [/message/] that follows is answered as it would have been
    before. *)
Theorem empty_payload_is_400_and_leaves_the_store
  {S : Type} `{!Storage S} (s : Server) (r : Request) (σ : World S) :
  Method r = MethodPut ->
  HasPrefix (Path r) "/message/" = true ->
  TrimSpace (Body r) = ""%string ->
  let out := exec (message s r) σ in
  Status (fst out) = StatusBadRequest
  /\ store (snd out) = store σ
  /\ forall g : Request,
       fst (exec (message s g) (snd out)) = fst (exec (message s g) σ).
Proof.
  intros Hm Hp Ht out.
  destruct (put_empty s r σ Hm Hp Ht) as (H1 & H2 & _).
  repeat split; auto.
  intros g. now apply message_reads_store_only.
Qed.

(** Scenario 3 of the test plan, on the empty in-memory store behind a
    recorder of calls: the empty [PUT] is a 400, no call reaches the store,
    and the [GET] that follows is a 404. *)
Lemma empty_payload_is_400_and_leaves_the_store_witness :
  let r := NewRequest "PUT" "/message/C1" "" in
  let σ := boot {| inner := Storage.empty; calls := [] |} in
  let out := exec (message newTestServer r) σ in
  (Status (fst out) = StatusBadRequest
   /\ store (snd out) = store σ
   /\ forall g : Request,
        fst (exec (message newTestServer g) (snd out))
        = fst (exec (message newTestServer g) σ))
  /\ calls (store (snd out)) = []
  /\ Status (fst (exec (message newTestServer (NewRequest "GET" "/message/C1" ""))
                       (snd out))) = StatusNotFound.
Proof.
  intros r σ out. split.
  - apply (empty_payload_is_400_and_leaves_the_store newTestServer r σ);
      reflexivity.
  - split; reflexivity.
Defined.

(** C6: for a [PUT /message/{code}] with a body within the size cap that is
    not empty once trimmed, the result of the one [AttachCipher] call fixes
    the response: an error gives 500, [(true, nil)] gives 204 and
    [(false, nil)] gives 409, each with an empty body, and the three statuses
    differ, so the response tells the result. The store left is the one
    [AttachCipher] returned; on the in-memory store [μ] a 409 leaves the
    store as it was. *)
Theorem put_outcome_follows_attach_result
  {S : Type} `{!Storage S} (s : Server) (r : Request)
  (σ : World S) (μ : World MemStore) :
  Method r = MethodPut ->
  HasPrefix (Path r) "/message/" = true ->
  Z.of_nat (String.length (Body r)) <= bodyLimit s ->
  TrimSpace (Body r) <> ""%string ->
  let out := exec (message s r) σ in
  let res := AttachCipher (store σ) (TrimPrefix (Path r) "/message/")
               (TrimSpace (Body r)) (MessageTTL (cfg s)) in
  (store (snd out) = snd res
   /\ Payload (fst out) = ""%string
   /\ Status (fst out) =
      match fst res with
      | (_, Some _) => StatusInternalServerError
      | (true, None) => StatusNoContent
      | (false, None) => StatusConflict
      end)
  /\ (Status (fst (exec (message s r) μ)) = StatusConflict ->
      store (snd (exec (message s r) μ)) = store μ).
Proof.
  intros Hm Hp Hl Ht out res. split.
  - apply put_attach; assumption.
  - destruct (put_attach s r μ Hm Hp Hl Ht) as (Hs & _ & Hst).
    intros H409. rewrite Hs. apply attach_cipher_conflict.
    rewrite Hst in H409. cbn in H409 |- *.
    destruct (attach_cipher _ _ _ _) as [[ok [e|]] st]; destruct ok;
      simpl in *; try reflexivity; discriminate H409.
Qed.

(** [TestPutMessageError]: [mockStore{attachOK: false, attachErr: err}] gives
    500; and scenario 2, a [PUT] for an unknown code on the empty in-memory
    store, gives 409 and leaves the store empty. *)
Lemma put_outcome_follows_attach_result_witness :
  let failing := {| reserveOK := false; attachOK := false; attachErr := Some "err"%string;
                    getVal := ""; getOK := false; getErr := None; pingErr := None |} in
  let r := NewRequest "PUT" "/message/UNKNOWN" "x" in
  let out := exec (message newTestServer r) (boot failing) in
  let res := AttachCipher failing (TrimPrefix (Path r) "/message/")
               (TrimSpace (Body r)) (MessageTTL (cfg newTestServer)) in
  ((store (snd out) = snd res
    /\ Payload (fst out) = ""%string
    /\ Status (fst out) =
       match fst res with
       | (_, Some _) => StatusInternalServerError
       | (true, None) => StatusNoContent
       | (false, None) => StatusConflict
       end)
   /\ (Status (fst (exec (message newTestServer r) (boot Storage.empty))) = StatusConflict ->
       store (snd (exec (message newTestServer r) (boot Storage.empty)))
       = store (boot Storage.empty)))
  /\ Status (fst out) = StatusInternalServerError
  /\ Status (fst (exec (message newTestServer r) (boot Storage.empty))) = StatusConflict.
Proof.
  intros failing r out res. split.
  - apply (put_outcome_follows_attach_result newTestServer r (boot failing)
             (boot Storage.empty)); [reflexivity | reflexivity | vm_compute; discriminate | vm_compute; discriminate].
  - split; reflexivity.
Defined.

(** C10: no transport-encoding check stands between the body and the store.
    Whatever [validBase64] says of the trimmed body, a [PUT /message/{code}]
    whose body is within the size cap and not empty once trimmed is handed to
    [AttachCipher]: the store left is the one that call returned, the status
    is the one its result fixes, and it is never 400. *)
Theorem nonempty_payload_is_forwarded_unvalidated
  {S : Type} `{!Storage S} (s : Server) (r : Request) (σ : World S)
  (verdict : bool) :
  Method r = MethodPut ->
  HasPrefix (Path r) "/message/" = true ->
  Z.of_nat (String.length (Body r)) <= bodyLimit s ->
  TrimSpace (Body r) <> ""%string ->
  validBase64 (TrimSpace (Body r)) = verdict ->
  let out := exec (message s r) σ in
  let res := AttachCipher (store σ) (TrimPrefix (Path r) "/message/")
               (TrimSpace (Body r)) (MessageTTL (cfg s)) in
  store (snd out) = snd res
  /\ Status (fst out) =
     match fst res with
     | (_, Some _) => StatusInternalServerError
     | (true, None) => StatusNoContent
     | (false, None) => StatusConflict
     end
  /\ Status (fst out) <> StatusBadRequest.
Proof.
  intros Hm Hp Hl Ht _. cbv zeta.
  destruct (put_attach s r σ Hm Hp Hl Ht) as (Hs & _ & Hst).
  repeat split; auto.
  rewrite Hst.
  destruct (AttachCipher _ _ _ _) as [[[|] [e|]] st]; discriminate.
Qed.

(** [TestPutMessageBadBase64]: the body [%%%] is not base64, and with a store
    that accepts the attachment the answer is 204. *)
Lemma nonempty_payload_is_forwarded_unvalidated_witness :
  let r := NewRequest "PUT" "/message/xyz" "%%%" in
  let out := exec (message newTestServer r) (boot attachingMock) in
  validBase64 (TrimSpace (Body r)) = false
  /\ Status (fst out) = StatusNoContent
  /\ (store (snd out)
      = snd (AttachCipher attachingMock (TrimPrefix (Path r) "/message/")
               (TrimSpace (Body r)) (MessageTTL (cfg newTestServer)))
      /\ Status (fst out) =
         match fst (AttachCipher attachingMock (TrimPrefix (Path r) "/message/")
                      (TrimSpace (Body r)) (MessageTTL (cfg newTestServer))) with
         | (_, Some _) => StatusInternalServerError
         | (true, None) => StatusNoContent
         | (false, None) => StatusConflict
         end
      /\ Status (fst out) <> StatusBadRequest).
Proof.
  intros r out. split; [reflexivity|]. split; [reflexivity|].
  apply (nonempty_payload_is_forwarded_unvalidated newTestServer r
           (boot attachingMock) false);
    [reflexivity | reflexivity | vm_compute; discriminate
    | vm_compute; discriminate | reflexivity].
Defined.

(** C10, as stated, fails: a body of nine bytes on a server that caps bodies
    at eight is not empty once trimmed, yet the [PUT] is answered 400 and the
    store receives no call. *)
Lemma nonempty_body_over_the_cap_is_400 :
  let r := NewRequest "PUT" "/message/xyz" "%%%%%%%%%" in
  let τ := boot {| inner := attachingMock; calls := [] |} in
  let out := exec (message cappedServer r) τ in
  TrimSpace (Body r) = Body r
  /\ ServeHTTP zeros cappedServer 0 r τ = Replied (fst out) (snd out)
  /\ Status (fst out) = StatusBadRequest
  /\ calls (store (snd out)) = []
  /\ ~ (forall (s : Server) (r : Request) (σ : World (Traced mockStore))
               (verdict : bool),
          Method r = MethodPut ->
          HasPrefix (Path r) "/message/" = true ->
          TrimSpace (Body r) <> ""%string ->
          validBase64 (TrimSpace (Body r)) = verdict ->
          store (snd (exec (message s r) σ))
          = snd (AttachCipher (store σ) (TrimPrefix (Path r) "/message/")
                   (TrimSpace (Body r)) (MessageTTL (cfg s)))
          /\ Status (fst (exec (message s r) σ)) <> StatusBadRequest).
Proof.
  intros r τ out. repeat (split; [vm_compute; reflexivity|]).
  intros H.
  destruct (H cappedServer r τ false) as [_ N];
    [reflexivity | reflexivity | vm_compute; discriminate | reflexivity |].
  apply N. vm_compute. reflexivity.
Qed.

(** C9: what is attached is the trimmed body. For a [PUT /message/{code}]
    whose body, within the size cap, starts or ends with white space around
    other content, the trimmed body differs from the body; the one call a
    recording store sees is [AttachCipher] with the trimmed body and the
    message TTL; and on the in-memory store, once the [PUT] has been answered
    204, a [GET] of the same path is answered 200 for as long as the message
    TTL has not elapsed, and whenever it is answered 200 its payload is the
    trimmed body. *)
Theorem attached_payload_is_the_trimmed_body
  {S : Type} `{!Storage S} (s : Server) (r : Request)
  (τ : World (Traced S)) (μ : World MemStore) :
  Method r = MethodPut ->
  HasPrefix (Path r) "/message/" = true ->
  Z.of_nat (String.length (Body r)) <= bodyLimit s ->
  leadingSpace (Body r) || trailingSpace (Body r) = true ->
  TrimSpace (Body r) <> ""%string ->
  TrimSpace (Body r) <> Body r
  /\ calls (store (snd (exec (message s r) τ)))
     = calls (store τ)
       ++ [CallAttachCipher (TrimPrefix (Path r) "/message/")
             (TrimSpace (Body r)) (MessageTTL (cfg s))]
  /\ (Status (fst (exec (message s r) μ)) = StatusNoContent ->
      forall (g : Request) (d : Z),
        Method g = MethodGet -> Path g = Path r ->
        let got := exec (message s g) (elapse d (snd (exec (message s r) μ))) in
        (Z.max 0 d < MessageTTL (cfg s) -> Status (fst got) = StatusOK)
        /\ (Status (fst got) = StatusOK ->
            Payload (fst got) = TrimSpace (Body r)
            /\ Payload (fst got) <> Body r)).
Proof.
  intros Hm Hp Hl Hsp Ht.
  pose proof (TrimSpace_changes _ Hsp) as Hne.
  split; [exact Hne|]. split.
  - destruct (put_attach s r τ Hm Hp Hl Ht) as (Hs & _). rewrite Hs. reflexivity.
  - intros H204 g d Hg Hpath got.
    destruct (put_attach s r μ Hm Hp Hl Ht) as (Hs & _ & Hst).
    rewrite Hst in H204.
    assert (Hok : fst (fst (attach_cipher (store μ) (TrimPrefix (Path r) "/message/")
                              (TrimSpace (Body r)) (MessageTTL (cfg s)))) = true).
    { cbn in H204. destruct (attach_cipher _ _ _ _) as [[[|] [e|]] st];
        simpl in *; try reflexivity; discriminate H204. }
    cbn in Hs. rewrite (attach_cipher_success _ _ _ _ Hok) in Hs.
    assert (Hpg : HasPrefix (Path g) "/message/" = true) by now rewrite Hpath.
    destruct (get_lookup s g (elapse d (snd (exec (message s r) μ))) Hg Hpg)
      as (_ & _ & Hgs & Hgp & _).
    fold got in Hgs, Hgp. rewrite Hgs, Hgp. clear Hgs Hgp.
    cbn. rewrite Hs, Hpath. unfold get_and_delete, live. cbn.
    rewrite lookup_insert_eq. cbn.
    destruct (now (store μ) + Z.max 0 d <? now (store μ) + MessageTTL (cfg s)) eqn:E;
      cbn.
    + repeat split; auto.
    + apply Z.ltb_ge in E. split; [intros; lia | discriminate].
Qed.

(** Scenario 1 of the test plan with a padded body: reserve, attach
    [" hello "], retrieve ["hello"]. *)
Lemma attached_payload_is_the_trimmed_body_witness :
  let r := NewRequest "PUT" "/message/C1" " hello " in
  let μ := boot (fst (snd (reserve_code Storage.empty "C1" Minute), tt)) in
  let τ := boot {| inner := zeroMock; calls := [] |} in
  (TrimSpace (Body r) <> Body r
   /\ calls (store (snd (exec (message newTestServer r) τ)))
      = calls (store τ)
        ++ [CallAttachCipher (TrimPrefix (Path r) "/message/")
              (TrimSpace (Body r)) (MessageTTL (cfg newTestServer))]
   /\ (Status (fst (exec (message newTestServer r) μ)) = StatusNoContent ->
       forall (g : Request) (d : Z),
         Method g = MethodGet -> Path g = Path r ->
         let got := exec (message newTestServer g)
                      (elapse d (snd (exec (message newTestServer r) μ))) in
         (Z.max 0 d < MessageTTL (cfg newTestServer) -> Status (fst got) = StatusOK)
         /\ (Status (fst got) = StatusOK ->
             Payload (fst got) = TrimSpace (Body r)
             /\ Payload (fst got) <> Body r)))
  /\ TrimSpace (Body r) = "hello"%string
  /\ Status (fst (exec (message newTestServer r) μ)) = StatusNoContent
  /\ Payload (fst (exec (message newTestServer (NewRequest "GET" "/message/C1" ""))
                        (snd (exec (message newTestServer r) μ)))) = "hello"%string.
Proof.
  intros r μ τ. split.
  - apply (attached_payload_is_the_trimmed_body newTestServer r τ μ);
      [reflexivity | reflexivity | vm_compute; discriminate | reflexivity
      | vm_compute; discriminate].
  - repeat split; reflexivity.
Defined.

(** C9, as stated, fails: on a server that caps bodies at eight bytes, a body
    of nine bytes made of a space and eight letters has white space before
    other content, yet the [PUT] is answered 400 and [AttachCipher] is not
    called, with the trimmed body or with anything else. *)
Lemma padded_body_over_the_cap_is_not_attached :
  let r := NewRequest "PUT" "/message/xyz" " 12345678" in
  let τ := boot {| inner := attachingMock; calls := [] |} in
  let out := exec (message cappedServer r) τ in
  leadingSpace (Body r) = true
  /\ TrimSpace (Body r) = "12345678"%string
  /\ ServeHTTP zeros cappedServer 0 r τ = Replied (fst out) (snd out)
  /\ Status (fst out) = StatusBadRequest
  /\ calls (store (snd out)) = []
  /\ ~ (forall (s : Server) (r : Request) (τ : World (Traced mockStore)),
          Method r = MethodPut ->
          HasPrefix (Path r) "/message/" = true ->
          leadingSpace (Body r) || trailingSpace (Body r) = true ->
          TrimSpace (Body r) <> ""%string ->
          calls (store (snd (exec (message s r) τ)))
          = calls (store τ)
            ++ [CallAttachCipher (TrimPrefix (Path r) "/message/")
                  (TrimSpace (Body r)) (MessageTTL (cfg s))]).
Proof.
  intros r τ out. repeat (split; [vm_compute; reflexivity|]).
  intros H.
  specialize (H cappedServer r τ eq_refl eq_refl eq_refl).
  assert (Ht : TrimSpace (Body r) <> ""%string) by (vm_compute; discriminate).
  specialize (H Ht). vm_compute in H. discriminate H.
Qed.

(* ===================================================================== *)
(** ** Retrieval: [GET /message/{code}] *)
(* ===================================================================== *)

(** C7: for a [GET /message/{code}] the result of the one [GetAndDelete] call
    fixes the response: an error gives 500; found gives 200 with the stored
    payload as the body, unchanged, and [Content-Type: text/plain]; not found
    gives 404. The store left is the one [GetAndDelete] returned. On the
    in-memory store [μ], 200 is the answer exactly when a live attached record
    holds the payload returned, 404 exactly when there is none (the code is
    absent, expired or still a placeholder), and after a 200 the code has no
    record. *)
Theorem get_outcome_follows_get_and_delete_result
  {S : Type} `{!Storage S} (s : Server) (g : Request)
  (σ : World S) (μ : World MemStore) :
  Method g = MethodGet ->
  HasPrefix (Path g) "/message/" = true ->
  let code := TrimPrefix (Path g) "/message/" in
  let out := exec (message s g) σ in
  let res := GetAndDelete (store σ) code in
  let out' := exec (message s g) μ in
  (store (snd out) = snd res
   /\ Status (fst out) =
      match fst res with
      | (_, _, Some _) => StatusInternalServerError
      | (_, true, None) => StatusOK
      | (_, false, None) => StatusNotFound
      end
   /\ Payload (fst out) =
      match fst res with
      | (ct, true, None) => ct
      | _ => ""%string
      end
   /\ (Status (fst out) = StatusOK ->
       Headers (fst out) !! "Content-Type"%string = Some "text/plain"%string))
  /\ (Status (fst out') = StatusOK <->
      exists e, live (store μ) code = Some (Attached (Payload (fst out')) e))
  /\ (Status (fst out') = StatusNotFound <->
      forall p e, live (store μ) code <> Some (Attached p e))
  /\ (Status (fst out') = StatusOK ->
      records (store (snd out')) !! code = None).
Proof.
  intros Hm Hp code out res out'.
  destruct (get_lookup s g σ Hm Hp) as (H1 & _ & H2 & H3 & H4).
  split; [repeat split; assumption|].
  destruct (get_lookup s g μ Hm Hp) as (M1 & _ & M2 & M3 & _).
  fold out' code in M1, M2, M3. cbn in M1, M2, M3.
  pose proof (get_and_delete_no_error (store μ) code) as Hne.
  pose proof (get_and_delete_found (store μ) code) as Hf.
  pose proof (get_and_delete_not_found (store μ) code) as Hn.
  pose proof (get_and_delete_removes (store μ) code) as Hr.
  rewrite M1, M2, M3. clear M1 M2 M3.
  destruct (get_and_delete (store μ) code) as [[[ct ok] err] st].
  simpl in *. subst err. destruct ok; simpl in *.
  - split; [|split].
    + split; [intros _; now apply Hf | reflexivity].
    + split; [discriminate|]. intros H. apply Hn in H. discriminate H.
    + intros _. destruct Hr as [-> _]; [reflexivity|]. apply lookup_delete_eq.
  - split; [|split].
    + split; [discriminate|]. intros [e H]. exfalso.
      exact (proj1 Hn eq_refl _ _ H).
    + split; [intros _; now apply Hn | reflexivity].
    + discriminate.
Qed.

(** [TestGetMessageOK] and scenario 1: the mock's ["abc"] and the in-memory
    store's ["hello"] come back as stored, with 200, and the in-memory record
    is gone. *)
Lemma get_outcome_follows_get_and_delete_result_witness :
  let g := NewRequest "GET" "/message/C1" "" in
  let μ := boot {| records := {[ "C1"%string := Attached "hello" Hour ]}; now := 0 |} in
  let out := exec (message newTestServer g) (boot holdingMock) in
  let out' := exec (message newTestServer g) μ in
  (Method g = MethodGet /\ HasPrefix (Path g) "/message/" = true)
  /\ (Status (fst out) = StatusOK /\ Payload (fst out) = "abc"%string
      /\ Headers (fst out) !! "Content-Type"%string = Some "text/plain"%string)
  /\ (Status (fst out') = StatusOK /\ Payload (fst out') = "hello"%string)
  /\ records (store (snd out')) !! "C1"%string = None.
Proof.
  intros g μ out out'.
  destruct (get_outcome_follows_get_and_delete_result newTestServer g
              (boot holdingMock) μ eq_refl eq_refl)
    as ((_ & H2 & H3 & H4) & _ & _ & M3).
  split; [split; reflexivity|]. split; [|split].
  - split; [exact H2|]. split; [exact H3|]. apply H4. exact H2.
  - split; reflexivity.
  - apply M3. reflexivity.
Defined.

(* ===================================================================== *)
(** ** Reservation: [/code] *)
(* ===================================================================== *)

Section Reservation.
Import Strings HTTP Storage Server.
Context {S : Type} `{!Storage S}.
Variable Reader : nat -> Z.
Variable s : Server.
Implicit Types (σ : World S) (w : ResponseWriter).

(** [generateCode] reads [n] values and touches nothing else. *)
Lemma generateCode_run (n : nat) : forall w σ,
  generateCode Reader n (w, σ)
  = (lettersFrom Reader (drawn σ) n,
     (w, {| store := store σ; drawn := drawn σ + n; logged := logged σ |})).
Proof.
  induction n as [|n IH]; intros w σ; simpl.
  - unfold ret. rewrite Nat.add_0_r. now destruct σ.
  - unfold bind, rand_Int, ret. rewrite IH. simpl.
    now rewrite Nat.add_succ_r.
Qed.

Lemma length_lettersFrom (n : nat) : forall k,
  String.length (lettersFrom Reader k n) = n.
Proof. induction n as [|n IH]; intros k; simpl; [reflexivity | now rewrite IH]. Qed.

(** One round of the loop, by the result of [ReserveCode]. *)
Lemma getCode_loop_round (fuel : nat) w σ :
  getCode_loop Reader s (Datatypes.S fuel) (w, σ)
  = let '((ok, err), st) :=
        ReserveCode (store σ) (candidate Reader (drawn σ)) (PlaceholderTTL (cfg s)) in
    let σ1 := {| store := st; drawn := drawn σ + 8; logged := logged σ |} in
    match err with
    | Some _ =>
      (Some Return,
       (WriteHeader StatusInternalServerError w,
        {| store := st; drawn := drawn σ + 8;
           logged := logged σ ++ reservationLog s None |}))
    | None =>
      if ok then (Some (Break (candidate Reader (drawn σ))), (w, σ1))
      else getCode_loop Reader s fuel (w, σ1)
    end.
Proof.
  cbn [getCode_loop]. unfold bind at 1. rewrite generateCode_run.
  fold (candidate Reader (drawn σ)).
  unfold bind, onStore, logIfSet, onWriter, ret. cbn [store drawn logged].
  destruct (ReserveCode _ _ _) as [[ok [e|]] st]; cbn -[candidate].
  - destruct (log s); cbn; [reflexivity|]. now rewrite app_nil_r.
  - now destruct ok.
Qed.

(** Every exit of the loop is a run of the algorithm. *)
Lemma getCode_loop_sound (fuel : nat) : forall w σ exit w' σ',
  getCode_loop Reader s fuel (w, σ) = (Some exit, (w', σ')) ->
  exists out,
    exit = loopExit out /\ w' = loopWriter out w
    /\ reserves Reader s (store σ) (drawn σ) out (store σ') (drawn σ')
    /\ logged σ' = logged σ ++ reservationLog s out.
Proof.
  induction fuel as [|fuel IH]; intros w σ exit w' σ' H; [discriminate|].
  rewrite getCode_loop_round in H.
  destruct (ReserveCode _ _ _) as [[ok [e|]] st] eqn:E.
  - inversion H; subst; clear H. exists None. cbn.
    repeat split; auto. eapply reserves_failure; eauto.
  - destruct ok.
    + inversion H; subst; clear H. exists (Some (candidate Reader (drawn σ))).
      cbn -[candidate]. repeat split; auto;
        [now apply reserves_success | now rewrite app_nil_r].
    + apply IH in H as (out & -> & -> & R & L). cbn in R, L.
      exists out. repeat split; auto. eapply reserves_retry; eauto.
Qed.

(** Every run of the algorithm is an exit of the loop, with enough fuel. *)
Lemma getCode_loop_complete st k out st' k' :
  reserves Reader s st k out st' k' ->
  forall w logs, exists fuel, forall fuel', (fuel <= fuel')%nat ->
    getCode_loop Reader s fuel' (w, {| store := st; drawn := k; logged := logs |})
    = (Some (loopExit out),
       (loopWriter out w,
        {| store := st'; drawn := k'; logged := logs ++ reservationLog s out |})).
Proof.
  induction 1 as [st k st' E | st k ok e st' E | st k st' out st'' k'' E R IH];
    intros w logs.
  - exists 1%nat. intros [|fuel'] Hf; [lia|].
    rewrite getCode_loop_round. cbn [store drawn logged]. rewrite E.
    cbn -[candidate]. now rewrite app_nil_r.
  - exists 1%nat. intros [|fuel'] Hf; [lia|].
    rewrite getCode_loop_round. cbn [store drawn logged]. rewrite E.
    reflexivity.
  - destruct (IH w logs) as [fuel Hfuel]. exists (Datatypes.S fuel).
    intros [|fuel'] Hf; [lia|].
    rewrite getCode_loop_round. cbn [store drawn logged]. rewrite E.
    apply Hfuel. lia.
Qed.

(** The route of a request to [/code]. *)
Lemma ServeHTTP_code (fuel : nat) (r : Request) σ :
  Path r = "/code"%string ->
  ServeHTTP Reader s fuel r σ
  = let '(returned, (w, σ')) := getCode Reader s fuel r (NewRecorder, σ) in
    if returned : bool then Replied (finish w) σ' else Spinning.
Proof. intros E. unfold ServeHTTP. rewrite E. reflexivity. Qed.

Lemma reserves_success_inv st k code st' k' :
  reserves Reader s st k (Some code) st' k' ->
  exists st0 k0,
    code = candidate Reader k0 /\ k' = (k0 + 8)%nat
    /\ ReserveCode st0 code (PlaceholderTTL (cfg s)) = ((true, None), st').
Proof.
  remember (Some code) as out eqn:Eo. induction 1; try discriminate.
  - inversion Eo; subst. eauto.
  - auto.
Qed.

(** [getCode] on a [GET]: the headers, the loop, the reply. *)
Lemma getCode_GET (fuel : nat) (r : Request) w σ :
  Method r = MethodGet ->
  getCode Reader s fuel r (w, σ)
  = match getCode_loop Reader s fuel
            (Header_Set "Pragma" "no-cache"
               (Header_Set "X-Content-Type-Options" "nosniff"
                  (Header_Set "Cache-Control" "no-store"
                     (Header_Set "Referrer-Policy" "no-referrer" w))), σ) with
    | (None, st) => (false, st)
    | (Some Return, st) => (true, st)
    | (Some (Break code), (w', σ')) =>
      (true, (Write (encodeCode code)
                (Header_Set "Content-Type" "application/json" w'), σ'))
    end.
Proof.
  intros Hm. unfold getCode. rewrite Hm, String.eqb_refl. cbn [negb].
  unfold secHeaders, bind, onWriter, ret.
  destruct (getCode_loop _ _ _ _) as [[[code|]|] [w' σ']]; reflexivity.
Qed.

End Reservation.

(** C8: [getCode] is the reservation algorithm. A [GET /code] is answered,
    given enough rounds, exactly when the algorithm started on the store and
    the entropy position of the world ends, and then the response, the store,
    the entropy position and the log are those of that run: the code with 200
    when [ReserveCode] accepted the candidate, 500 and no code when it
    failed, collisions showing only in the store and in the entropy drawn.
    Every candidate has eight characters, and a code handed out is a candidate
    for which [ReserveCode] returned [(true, nil)]. *)
Theorem getCode_is_the_reservation_algorithm
  {S : Type} `{!Storage S} (Reader : nat -> Z) (s : Server) (r : Request)
  (σ σ' : World S) (resp : Response) :
  Method r = MethodGet ->
  Path r = "/code"%string ->
  ((exists fuel, forall fuel', (fuel <= fuel')%nat ->
      ServeHTTP Reader s fuel' r σ = Replied resp σ')
   <-> exists out,
         reserves Reader s (store σ) (drawn σ) out (store σ') (drawn σ')
         /\ resp = reservationReply out
         /\ logged σ' = logged σ ++ reservationLog s out)
  /\ (forall k, String.length (candidate Reader k) = 8%nat)
  /\ (forall st k code st' k',
        reserves Reader s st k (Some code) st' k' ->
        exists st0 k0,
          code = candidate Reader k0 /\ k' = (k0 + 8)%nat
          /\ ReserveCode st0 code (PlaceholderTTL (cfg s)) = ((true, None), st')).
Proof.
  intros Hm Hp. split; [|split].
  - split.
    + intros [fuel H]. specialize (H fuel (Nat.le_refl _)).
      rewrite (ServeHTTP_code _ _ _ _ _ Hp) in H.
      rewrite (getCode_GET _ _ _ _ _ _ Hm) in H.
      destruct (getCode_loop Reader s fuel _) as [[exit|] [w' σ1]] eqn:E;
        [|discriminate].
      apply getCode_loop_sound in E as (out & -> & -> & R & L).
      exists out. destruct out as [code|]; cbn in H; inversion H; subst;
        clear H; repeat split; auto.
    + intros (out & R & -> & L).
      destruct (getCode_loop_complete Reader s _ _ _ _ _ R
                  (Header_Set "Pragma" "no-cache"
                     (Header_Set "X-Content-Type-Options" "nosniff"
                        (Header_Set "Cache-Control" "no-store"
                           (Header_Set "Referrer-Policy" "no-referrer" NewRecorder))))
                  (logged σ)) as [fuel Hfuel].
      exists fuel. intros fuel' Hf. specialize (Hfuel fuel' Hf).
      rewrite (ServeHTTP_code _ _ _ _ _ Hp), (getCode_GET _ _ _ _ _ _ Hm).
      destruct σ as [st k logs], σ' as [st' k' logs']. cbn in *. subst logs'.
      rewrite Hfuel. now destruct out.
  - intros k. apply length_lettersFrom.
  - apply reserves_success_inv.
Qed.

(** A collision and a success: the first candidate of the counting entropy
    source is taken, the second is free. Two rounds answer the request with
    the second candidate; one round is not enough. *)
Lemma getCode_is_the_reservation_algorithm_witness :
  let r := NewRequest "GET" "/code" "" in
  let st := snd (reserve_code Storage.empty "ABCDEFGH" Minute) in
  let st' := snd (reserve_code st "JKLMNPQR" Minute) in
  let σ := boot st in
  let σ' := {| store := st'; drawn := 16; logged := [] |} in
  (Method r = MethodGet /\ Path r = "/code"%string)
  /\ candidate counting 8 = "JKLMNPQR"%string
  /\ ServeHTTP counting newTestServer 1 r σ = Spinning
  /\ exists fuel, forall fuel', (fuel <= fuel')%nat ->
       ServeHTTP counting newTestServer fuel' r σ
       = Replied (reservationReply (Some (candidate counting 8))) σ'.
Proof.
  intros r st st' σ σ'.
  split; [split; reflexivity|]. split; [reflexivity|].
  split; [vm_compute; reflexivity|].
  apply (proj2 (proj1 (getCode_is_the_reservation_algorithm counting newTestServer
                         r σ σ' (reservationReply (Some (candidate counting 8)))
                         eq_refl eq_refl))).
  exists (Some (candidate counting 8)). split; [|split; reflexivity].
  apply (reserves_retry counting newTestServer st 0 st);
    [vm_compute; reflexivity|].
  apply (reserves_success counting newTestServer st 8 st').
  vm_compute; reflexivity.
Defined.

(* ===================================================================== *)
(** ** One retrieval per attachment *)
(* ===================================================================== *)

Section OneRetrieval.
Import Strings HTTP Storage Server Lifecycle.
Variable Reader : nat -> Z.
Variable s : Server.
Variable code : string.
Implicit Types (st : MemStore) (σ : World MemStore) (r : Request).

(** The invariant: the store holds no record for [code]. *)
Local Abbreviation absent st := (records st !! code = None).

Lemma attach_cipher_keeps_absent st c ct ttl :
  absent st -> absent (snd (attach_cipher st c ct ttl)).
Proof.
  intros A. unfold attach_cipher.
  destruct (live st c) as [[e|p e]|] eqn:L; simpl; auto.
  rewrite lookup_insert_ne; [assumption|].
  intros ->. rewrite (live_absent _ _ A) in L. discriminate.
Qed.

Lemma get_and_delete_keeps_absent st c :
  absent st -> absent (snd (get_and_delete st c)).
Proof.
  intros A. unfold get_and_delete.
  destruct (live st c) as [[e|p e]|]; simpl; auto.
  destruct (decide (c = code)) as [->|N];
    [apply lookup_delete_eq | now rewrite lookup_delete_ne].
Qed.

Lemma message_keeps_absent r σ :
  absent (store σ) -> absent (store (snd (exec (message s r) σ))).
Proof.
  intros A. unfold_handlers.
  destruct (negb (HasPrefix (Path r) "/message/")); [exact A|].
  destruct (String.eqb (Method r) MethodPut).
  - simpl. destruct (ReadAll _ _) as [body|]; simpl.
    + destruct (String.eqb (TrimSpace body) ""); simpl.
      * destruct (log s); exact A.
      * pose proof (attach_cipher_keeps_absent (store σ)
                      (TrimPrefix (Path r) "/message/") (TrimSpace body)
                      (MessageTTL (cfg s)) A) as K.
        cbn. destruct (attach_cipher _ _ _ _) as [[ok [e|]] st]; simpl in *;
          destruct ok, (log s); exact K.
    + destruct (log s); exact A.
  - destruct (String.eqb (Method r) MethodGet); [|exact A].
    simpl.
    pose proof (get_and_delete_keeps_absent (store σ)
                  (TrimPrefix (Path r) "/message/") A) as K.
    cbn. destruct (get_and_delete _ _) as [[[ct ok] [e|]] st]; simpl in *;
      destruct ok, (log s); exact K.
Qed.

Lemma reserve_code_keeps_absent st c ttl :
  (fst (fst (reserve_code st c ttl)) = true -> c <> code) ->
  absent st -> absent (snd (reserve_code st c ttl)).
Proof.
  unfold reserve_code. destruct (live st c); simpl; intros N A; [exact A|].
  rewrite lookup_insert_ne; auto.
Qed.

(** A reservation that does not hand out [code] leaves it absent. *)
Lemma reserves_keeps_absent st k out st' k' :
  reserves Reader s st k out st' k' ->
  out <> Some code -> absent st -> absent st'.
Proof.
  induction 1 as [st k st' E | st k ok e st' E | st k st' out st'' k'' E R IH];
    intros N A;
    change (ReserveCode st (candidate Reader k) (PlaceholderTTL (cfg s)))
      with (reserve_code st (candidate Reader k) (PlaceholderTTL (cfg s))) in E;
    pose proof (reserve_code_keeps_absent st (candidate Reader k)
                  (PlaceholderTTL (cfg s))) as K;
    rewrite E in K; simpl in K.
  - apply K; [intros _ Hc; congruence | assumption].
  - pose proof (reserve_code_no_error st (candidate Reader k)
                  (PlaceholderTTL (cfg s))) as Z.
    rewrite E in Z. discriminate Z.
  - apply IH; [assumption|]. apply K; [discriminate | assumption].
Qed.

(** One event keeps [code] absent unless it hands it out. *)
Lemma step_keeps_absent σ e xs σ' :
  step Reader s σ e = Some (xs, σ') ->
  Forall (fun x => ~ handsOut code x) xs ->
  absent (store σ) -> absent (store σ').
Proof.
  destruct e as [fuel r | d]; cbn [step]; intros H F A.
  - rewrite ServeHTTP_routes in H.
    destruct (negb (pathIsClean (Path r))); [now inversion H; subst|].
    destruct (String.eqb_spec "/code" (Path r)) as [Ep|_].
    + destruct (String.eqb_spec (Method r) MethodGet) as [Em|Nm].
      * rewrite (getCode_GET _ _ _ _ _ _ Em) in H.
        destruct (getCode_loop Reader s fuel _) as [[exit|] [w1 σ1]] eqn:L;
          [|discriminate].
        apply getCode_loop_sound in L as (out & -> & -> & R & _).
        assert (Hx : xs = [(r, reservationReply out)] /\ σ' = σ1)
          by (destruct out; cbn in H; inversion H; auto).
        destruct Hx as [-> ->].
        apply (reserves_keeps_absent _ _ _ _ _ R); [|assumption].
        intros ->. inversion F as [|x l Hx _]; subst. apply Hx.
        repeat split; auto.
      * unfold getCode in H. apply String.eqb_neq in Nm. rewrite Nm in H.
        cbn in H. inversion H; subst. assumption.
    + destruct (HasPrefix (Path r) "/message/").
      * inversion H; subst. now apply message_keeps_absent.
      * destruct (String.eqb "/health" (Path r)); inversion H; subst; assumption.
  - inversion H; subst. exact A.
Qed.

Lemma run_keeps_absent (evs : list Event) : forall σ xs σ',
  run Reader s evs σ = Some (xs, σ') ->
  Forall (fun x => ~ handsOut code x) xs ->
  absent (store σ) -> absent (store σ').
Proof.
  induction evs as [|e evs IH]; intros σ xs σ' H F A; cbn [run] in H.
  - inversion H; subst. exact A.
  - destruct (step Reader s σ e) as [[ys σ1]|] eqn:E1; [|discriminate].
    destruct (run Reader s evs σ1) as [[zs σ2]|] eqn:E2; [|discriminate].
    inversion H; subst; clear H. apply Forall_app in F as [Fy Fz].
    eapply IH; eauto. eapply step_keeps_absent; eauto.
Qed.

(** With no record for the code, retrieval answers 404. *)
Lemma get_absent_is_404 r σ :
  Method r = MethodGet -> HasPrefix (Path r) "/message/" = true ->
  code = TrimPrefix (Path r) "/message/" ->
  absent (store σ) ->
  Status (fst (exec (message s r) σ)) = StatusNotFound.
Proof.
  intros Hm Hp -> A.
  destruct (get_lookup s r σ Hm Hp) as (_ & _ & H & _). rewrite H. cbn.
  unfold get_and_delete. now rewrite (live_absent _ _ A).
Qed.

End OneRetrieval.




(* ===================================================================== *)
(** ** The shape of every reply *)
(* ===================================================================== *)

Section Replies.
Import Strings HTTP Storage Server.
Context {S : Type} `{!Storage S}.
Variable Reader : nat -> Z.
Variable s : Server.
Implicit Types (r : Request) (σ : World S).

Lemma message_reply r σ :
  HasPrefix (Path r) "/message/" = true ->
  let resp := fst (exec (message s r) σ) in
  (Status resp = StatusMethodNotAllowed /\ Headers resp = ∅
   /\ Payload resp = ""%string /\ snd (exec (message s r) σ) = σ)
  \/ (In (Status resp) [StatusOK; StatusNoContent; StatusBadRequest;
                        StatusNotFound; StatusConflict;
                        StatusInternalServerError]
      /\ defended resp /\ Headers resp !! "Location"%string = None).
Proof.
  intros Hp. unfold defended. unfold_handlers. rewrite Hp. cbn [negb].
  destruct (String.eqb (Method r) MethodPut).
  - right. simpl. destruct (ReadAll _ _) as [body|]; simpl.
    + destruct (String.eqb (TrimSpace body) ""); simpl.
      * destruct (log s); cbn; intuition.
      * destruct (AttachCipher _ _ _ _) as [[ok [e|]] st]; simpl;
          destruct ok, (log s); cbn; intuition.
    + destruct (log s); cbn; intuition.
  - destruct (String.eqb (Method r) MethodGet).
    + right. simpl. destruct (GetAndDelete _ _) as [[[ct ok] [e|]] st]; simpl;
        destruct ok, (log s); cbn; intuition.
    + left. cbn. destruct σ; auto.
Qed.

(** Whatever the request, a reply is either the bare 405 of a method
    check, sent before [secHeaders] has run and leaving the world as it
    was, or carries the defensive headers and one of six statuses. No
    reply is a 201 or a 429, and none has a [Location] header. *)
Lemma reply_shape (fuel : nat) r σ resp σ' :
  ServeHTTP Reader s fuel r σ = Replied resp σ' ->
  (Status resp = StatusMethodNotAllowed /\ Headers resp = ∅
   /\ Payload resp = ""%string /\ σ' = σ)
  \/ (In (Status resp) [StatusOK; StatusNoContent; StatusBadRequest;
                        StatusNotFound; StatusConflict;
                        StatusInternalServerError]
      /\ defended resp /\ Headers resp !! "Location"%string = None).
Proof.
  intros H. rewrite ServeHTTP_routes in H.
  destruct (negb (pathIsClean (Path r))); [discriminate|].
  destruct (String.eqb "/code" (Path r)).
  - destruct (String.eqb_spec (Method r) MethodGet) as [Em|Nm].
    + rewrite (getCode_GET _ _ _ _ _ _ Em) in H.
      destruct (getCode_loop Reader s fuel _) as [[exit|] [w1 σ1]] eqn:L;
        [|discriminate].
      apply getCode_loop_sound in L as (out & -> & -> & _).
      right. unfold defended.
      destruct out; cbn in H; inversion H; subst; cbn; intuition.
    + left. unfold getCode in H. apply String.eqb_neq in Nm. rewrite Nm in H.
      cbn in H. inversion H; subst. cbn. auto.
  - destruct (HasPrefix (Path r) "/message/") eqn:Hp.
    + inversion H; subst. now apply message_reply.
    + destruct (String.eqb "/health" (Path r)); [|discriminate].
      right. inversion H; subst. unfold defended. cbn. intuition.
Qed.

Lemma no_reply_is_429 (fuel : nat) r σ resp σ' :
  ServeHTTP Reader s fuel r σ = Replied resp σ' ->
  Status resp <> StatusTooManyRequests /\ Status resp <> StatusCreated.
Proof.
  intros H. apply reply_shape in H as [(E & _) | (I & _)].
  - rewrite E. split; discriminate.
  - cbn in I. intuition; subst; try discriminate;
      match goal with K : _ = Status resp |- _ => rewrite <- K in *; discriminate end.
Qed.

End Replies.

(* ===================================================================== *)
(** ** Where the handlers part from the interface table *)
(* ===================================================================== *)

(** C2: [TestPostCode201] expects 201 and a [Location] header on
    [POST /code]. The handler accepts [GET] only: on any store the [POST] is
    answered 405 with no header and no body, and the world is left as it
    was. A [GET /code] on the test's store does reserve a code, and is
    answered 200 with the code as JSON and no [Location] header. *)
Theorem post_code_is_405_not_201
  {S : Type} `{!Storage S} (Reader : nat -> Z) (s : Server) (fuel : nat)
  (σ : World S) (body : string) :
  ServeHTTP Reader s fuel (NewRequest "POST" "/code" body) σ
  = Replied {| Status := StatusMethodNotAllowed; Headers := ∅; Payload := "" |} σ
  /\ let served := ServeHTTP zeros newTestServer 1 (NewRequest "GET" "/code" "")
                     (boot reservingMock) in
     Status <$> replyOf served = Some StatusOK
     /\ Payload <$> replyOf served = Some (encodeCode "AAAAAAAA")
     /\ (Headers <$> replyOf served) ≫= (.!! "Location"%string) = None.
Proof.
  split; [reflexivity|]. vm_compute. repeat split; reflexivity.
Qed.

(** C3: [TestRateLimit] expects the second of two requests to [/code] to be
    answered 429. The server has no limiter. The test's two [POST]s are both
    answered 405; two [GET]s in a row are both answered 200, and the store,
    which records its calls, has seen one [ReserveCode] for each. *)
Theorem second_request_is_not_rejected :
  let post := NewRequest "POST" "/code" "" in
  let get := NewRequest "GET" "/code" "" in
  let σ := boot {| inner := reservingMock; calls := [] |} in
  let posted1 := ServeHTTP counting newTestServer 1 post σ in
  let posted2 := ServeHTTP counting newTestServer 1 post (worldOf σ posted1) in
  let got1 := ServeHTTP counting newTestServer 1 get σ in
  let got2 := ServeHTTP counting newTestServer 1 get (worldOf σ got1) in
  (Status <$> replyOf posted1 = Some StatusMethodNotAllowed
   /\ Status <$> replyOf posted2 = Some StatusMethodNotAllowed)
  /\ (Status <$> replyOf got1 = Some StatusOK
      /\ Status <$> replyOf got2 = Some StatusOK
      /\ Payload <$> replyOf got2 = Some (encodeCode "JKLMNPQR")
      /\ calls (store (worldOf σ got2))
         = [CallReserveCode "ABCDEFGH" Minute; CallReserveCode "JKLMNPQR" Minute]).
Proof. vm_compute. repeat split; reflexivity. Qed.

(** C4: the defensive headers are missing on the method checks. A [POST] to
    [/code] and a [DELETE] under [/message/] are answered 405 before
    [secHeaders] has run: the response has none of the three headers. The
    same holds of the 404 that [message] writes for a path outside
    [/message/], a branch the mux never takes. *)
Theorem method_not_allowed_has_no_defensive_header
  {S : Type} `{!Storage S} (Reader : nat -> Z) (s : Server) (fuel : nat)
  (σ : World S) (body : string) :
  let bare := {| Status := StatusMethodNotAllowed; Headers := ∅; Payload := "" |} in
  ServeHTTP Reader s fuel (NewRequest "POST" "/code" body) σ = Replied bare σ
  /\ ServeHTTP Reader s fuel (NewRequest "DELETE" "/message/xyz" body) σ
     = Replied bare σ
  /\ fst (exec (message s (NewRequest "GET" "/elsewhere" body)) σ)
     = {| Status := StatusNotFound; Headers := ∅; Payload := "" |}
  /\ ~ defended bare
  /\ Headers bare !! "Cache-Control"%string = None
  /\ Headers bare !! "Referrer-Policy"%string = None
  /\ Headers bare !! "X-Content-Type-Options"%string = None.
Proof.
  intros bare. split; [reflexivity|]. split; [|split].
  - unfold ServeHTTP. cbn. now destruct σ.
  - reflexivity.
  - split; [|repeat split; reflexivity].
    intros (H & _). discriminate H.
Qed.

(* ===================================================================== *)
(** * Further properties of the handlers and of the logger *)
(* ===================================================================== *)

Import Alphabet Outcome.

(* ===================================================================== *)
(** ** What trimming leaves *)
(* ===================================================================== *)

Section TrimFacts.
Import Strings.

Lemma get_sliceTo (j i : nat) (t : string) :
  (i < j)%nat -> String.get i (sliceTo j t) = String.get i t.
Proof.
  intros H. unfold sliceTo. rewrite (substring_correct1 t 0 j i H).
  now rewrite Nat.add_0_r.
Qed.

Lemma byteAt_sliceTo (j : nat) (i : Z) (t : string) :
  0 <= i -> (Z.to_nat i < j)%nat -> byteAt (sliceTo j t) i = byteAt t i.
Proof. intros _ H. unfold byteAt. now rewrite get_sliceTo. Qed.

Lemma IsSpace_RuneError : IsSpace RuneError = false.
Proof. reflexivity. Qed.

Lemma leadSize_cases (s0 : Z) :
  leadSize s0 = 0%nat \/ leadSize s0 = 2%nat \/ leadSize s0 = 3%nat
  \/ leadSize s0 = 4%nat.
Proof.
  unfold leadSize.
  destruct ((s0 <? 0xC2) || (0xF4 <? s0)); auto.
  destruct (s0 <? 0xE0); auto. destruct (s0 <? 0xF0); auto.
Qed.

(** Two strings with the same first byte that agree on the bytes of the
    shorter one have the same first rune, unless the shorter one cuts it. *)
Lemma DecodeRuneInString_agree (c0 : ascii) (a b : string) :
  (String.length (String c0 a) <= String.length (String c0 b))%nat ->
  (forall i, 0 <= i -> (Z.to_nat i < String.length (String c0 a))%nat ->
             byteAt (String c0 a) i = byteAt (String c0 b) i) ->
  DecodeRuneInString (String c0 a) = DecodeRuneInString (String c0 b)
  \/ fst (DecodeRuneInString (String c0 a)) = RuneError.
Proof.
  set (p := String c0 a). set (t := String c0 b). intros Hlen Hb.
  unfold DecodeRuneInString, p, t. fold p. fold t.
  destruct (byteZ c0 <? RuneSelf); [now left|].
  destruct (leadSize_cases (byteZ c0)) as [E|[E|[E|E]]]; rewrite E;
    [now left| | |]; cbv beta iota.
  all: destruct (Nat.ltb_spec (String.length p) (leadSize (byteZ c0))) as [L|L];
    rewrite E in L.
  all: try (right; apply Nat.ltb_lt in L; rewrite L; reflexivity).
  all: rewrite (proj2 (Nat.ltb_ge _ _) L).
  all: rewrite (proj2 (Nat.ltb_ge _ _) (Nat.le_trans _ _ _ L Hlen)).
  all: left; simpl Nat.leb.
  - rewrite (Hb 1) by lia. reflexivity.
  - rewrite (Hb 1), (Hb 2) by lia. reflexivity.
  - rewrite (Hb 1), (Hb 2), (Hb 3) by lia. reflexivity.
Qed.

(** The first rune of a prefix is the first rune of the string, unless the
    prefix cuts it short. *)
Lemma DecodeRuneInString_sliceTo (j : nat) (t : string) :
  DecodeRuneInString (sliceTo j t) = DecodeRuneInString t
  \/ fst (DecodeRuneInString (sliceTo j t)) = RuneError.
Proof.
  destruct t as [|c0 t1]; [destruct j; left; reflexivity|].
  destruct j as [|j1]; [right; reflexivity|].
  change (sliceTo (Datatypes.S j1) (String c0 t1))
    with (String c0 (substring 0 j1 t1)).
  apply DecodeRuneInString_agree.
  - change (String c0 (substring 0 j1 t1))
      with (sliceTo (Datatypes.S j1) (String c0 t1)).
    rewrite length_sliceTo. lia.
  - intros i Hi Hl.
    change (String c0 (substring 0 j1 t1))
      with (sliceTo (Datatypes.S j1) (String c0 t1)) in *.
    rewrite length_sliceTo in Hl. apply byteAt_sliceTo; [assumption | lia].
Qed.

Lemma leadingSpace_sliceTo (j : nat) (t : string) :
  leadingSpace (sliceTo j t) = true -> leadingSpace t = true.
Proof.
  unfold leadingSpace.
  destruct (DecodeRuneInString_sliceTo j t) as [-> | E]; [trivial|].
  destruct (DecodeRuneInString (sliceTo j t)) as [r wid]. simpl in E. subst r.
  rewrite IsSpace_RuneError, andb_false_r. discriminate.
Qed.

Lemma leadingSpace_trimRightLoop (n : nat) : forall t : string,
  leadingSpace (trimRightLoop IsSpace n t) = true -> leadingSpace t = true.
Proof.
  induction n as [|n IH]; intros t; simpl; [trivial|].
  destruct (DecodeLastRuneInString t) as [r size].
  destruct ((0 <? size)%nat && IsSpace r); [|trivial].
  intros H. apply IH in H. now apply leadingSpace_sliceTo in H.
Qed.

Lemma trimLeftLoop_done (n : nat) : forall s : string,
  (String.length s <= n)%nat ->
  leadingSpace (trimLeftLoop IsSpace n s) = false.
Proof.
  induction n as [|n IH]; intros s Hn.
  - destruct s; [reflexivity | simpl in Hn; lia].
  - simpl. unfold leadingSpace at 1.
    destruct (DecodeRuneInString s) as [r wid] eqn:E.
    destruct ((0 <? wid)%nat && IsSpace r) eqn:G.
    + apply IH. rewrite length_sliceFrom.
      apply andb_true_iff in G as [Hw _]. apply Nat.ltb_lt in Hw. lia.
    + unfold leadingSpace. now rewrite E.
Qed.

Lemma trimRightLoop_done (n : nat) : forall s : string,
  (String.length s <= n)%nat ->
  trailingSpace (trimRightLoop IsSpace n s) = false.
Proof.
  induction n as [|n IH]; intros s Hn.
  - destruct s; [reflexivity | simpl in Hn; lia].
  - simpl.
    destruct (DecodeLastRuneInString s) as [r size] eqn:E.
    destruct ((0 <? size)%nat && IsSpace r) eqn:G.
    + apply IH. rewrite length_sliceTo.
      apply andb_true_iff in G as [Hw _]. apply Nat.ltb_lt in Hw.
      destruct s; [rewrite DecodeLastRuneInString_empty in E; inversion E; lia|].
      simpl in *. lia.
    + unfold trailingSpace. now rewrite E.
Qed.

(** A trimmed string neither starts nor ends with white space. *)
Lemma TrimSpace_trimmed (s : string) :
  leadingSpace (TrimSpace s) = false /\ trailingSpace (TrimSpace s) = false.
Proof.
  unfold TrimSpace, TrimFunc. split.
  - destruct (leadingSpace (TrimRightFunc _ _)) eqn:E; [|reflexivity].
    apply leadingSpace_trimRightLoop in E.
    unfold TrimLeftFunc in E. now rewrite trimLeftLoop_done in E.
  - unfold TrimRightFunc at 1. now apply trimRightLoop_done.
Qed.

(** Trimming leaves alone a string with no white space at either end. *)
Lemma TrimSpace_fixed (s : string) :
  leadingSpace s = false -> trailingSpace s = false -> TrimSpace s = s.
Proof.
  intros L R. unfold TrimSpace, TrimFunc.
  assert (E : TrimLeftFunc s IsSpace = s).
  { unfold TrimLeftFunc. destruct (String.length s); [reflexivity|].
    simpl. unfold leadingSpace in L.
    destruct (DecodeRuneInString s) as [r wid]. now rewrite L. }
  rewrite E. unfold TrimRightFunc. destruct (String.length s); [reflexivity|].
  simpl. unfold trailingSpace in R.
  destruct (DecodeLastRuneInString s) as [r size]. now rewrite R.
Qed.

Lemma TrimSpace_idempotent (s : string) : TrimSpace (TrimSpace s) = TrimSpace s.
Proof. destruct (TrimSpace_trimmed s). now apply TrimSpace_fixed. Qed.

Lemma TrimSpace_length (s : string) :
  (String.length (TrimSpace s) <= String.length s)%nat.
Proof.
  unfold TrimSpace, TrimFunc, TrimRightFunc, TrimLeftFunc.
  pose proof (trimLeftLoop_shrinks IsSpace (String.length s) s) as L.
  pose proof (trimRightLoop_shrinks IsSpace
                (String.length (trimLeftLoop IsSpace (String.length s) s))
                (trimLeftLoop IsSpace (String.length s) s)) as R.
  destruct L as [L|L], R as [R|R]; rewrite ?R, ?L in *; lia.
Qed.

End TrimFacts.

(* ===================================================================== *)
(** ** [validBase64] *)
(* ===================================================================== *)

Section Base64Facts.
Import Strings.

Lemma base64Byte_plain (c : ascii) :
  base64Byte (byteZ c) = true ->
  (byteZ c <? RuneSelf) = true /\ IsSpace (byteZ c) = false.
Proof.
  destruct c as [[] [] [] [] [] [] [] []]; vm_compute; intros H;
    try discriminate H; split; reflexivity.
Qed.

Lemma allBase64_app (s1 s2 : string) :
  allBase64 (s1 +:+ s2) = allBase64 s1 && allBase64 s2.
Proof.
  induction s1 as [|c s1 IH]; [reflexivity|].
  change (String c s1 +:+ s2) with (String c (s1 +:+ s2)).
  simpl. destruct (base64Byte (byteZ c)); [exact IH | reflexivity].
Qed.

Lemma validBase64_allBase64 (s : string) :
  validBase64 s = true <-> s <> ""%string /\ allBase64 s = true.
Proof.
  unfold validBase64. destruct s as [|c s]; simpl; split;
    try (intros [H _]; now contradiction H); try discriminate;
    intros H; [split; [discriminate | exact H] | apply H].
Qed.

Lemma allBase64_byteAt (s : string) : forall i : nat,
  allBase64 s = true -> (i < String.length s)%nat ->
  base64Byte (byteAt s (Z.of_nat i)) = true.
Proof.
  induction s as [|c s IH]; intros i H Hi; [simpl in Hi; lia|].
  simpl in H. destruct (base64Byte (byteZ c)) eqn:B; [|discriminate].
  unfold byteAt. rewrite Nat2Z.id. destruct i as [|i]; [exact B|].
  simpl. specialize (IH i H). unfold byteAt in IH. rewrite Nat2Z.id in IH.
  apply IH. simpl in Hi. lia.
Qed.

(** A string [validBase64] accepts has no white space at either end. *)
Lemma validBase64_no_outer_space (s : string) :
  validBase64 s = true -> leadingSpace s = false /\ trailingSpace s = false.
Proof.
  intros V. apply validBase64_allBase64 in V as [Hne Hall]. split.
  - destruct s as [|c s]; [reflexivity|].
    simpl in Hall. destruct (base64Byte (byteZ c)) eqn:B; [|discriminate].
    destruct (base64Byte_plain c B) as [A Sp].
    unfold leadingSpace, DecodeRuneInString. rewrite A. simpl. now rewrite Sp.
  - destruct s as [|c s]; [now contradiction Hne|].
    unfold trailingSpace, DecodeLastRuneInString.
    set (t := String c s) in *.
    assert (Hlen : String.length t = Datatypes.S (String.length s)) by reflexivity.
    assert (E0 : (Z.of_nat (String.length t) =? 0) = false)
      by (apply Z.eqb_neq; lia).
    rewrite E0.
    replace (Z.of_nat (String.length t) - 1) with (Z.of_nat (String.length s))
      by lia.
    pose proof (allBase64_byteAt t (String.length s) Hall ltac:(lia)) as B.
    remember (byteAt t (Z.of_nat (String.length s))) as b eqn:Eb.
    assert (K : (b <? RuneSelf) = true /\ IsSpace b = false).
    { unfold byteAt in Eb. destruct (String.get _ t) as [c'|].
      - subst b. now apply base64Byte_plain.
      - subst b. discriminate B. }
    destruct K as [A Sp]. rewrite A. simpl. now rewrite Sp.
Qed.

End Base64Facts.

(* ===================================================================== *)
(** ** Every handler, branch by branch *)
(* ===================================================================== *)

Section Anatomy.
Context {S : Type} `{!Storage S}.
Variable Reader : nat -> Z.
Variable s : Server.
Implicit Types (r : Request) (σ : World S).

(** [putMessage], as a function of the request and the world. *)
Lemma exec_put r σ :
  Method r = MethodPut -> HasPrefix (Path r) "/message/" = true ->
  exec (message s r) σ
  = if bodyLimit s <? Z.of_nat (String.length (Body r)) then
      (plain StatusBadRequest, noted s Log.Warn "body_read_error" "message_put" σ)
    else if String.eqb (TrimSpace (Body r)) "" then
      (plain StatusBadRequest, noted s Log.Warn "empty_body" "message_put" σ)
    else
      let '((ok, err), st) :=
          AttachCipher (store σ) (TrimPrefix (Path r) "/message/")
            (TrimSpace (Body r)) (MessageTTL (cfg s)) in
      match err with
      | Some _ =>
        (plain StatusInternalServerError,
         noted s Log.Error "attach_cipher_error" "message_put" (withStore st σ))
      | None =>
        if ok then (plain StatusNoContent, withStore st σ)
        else (plain StatusConflict,
              noted s Log.Warn "attach_conflict" "message_put" (withStore st σ))
      end.
Proof.
  intros Hm Hp. unfold_handlers. rewrite Hp, Hm. cbn [negb String.eqb].
  rewrite String.eqb_refl. unfold ReadAll, noted, plain, withStore.
  rewrite Z.ltb_antisym.
  destruct (Z.of_nat (String.length (Body r)) <=? bodyLimit s); cbn [negb].
  - destruct (String.eqb (TrimSpace (Body r)) "").
    + destruct (log s); reflexivity.
    + destruct (AttachCipher _ _ _ _) as [[ok [e|]] st]; cbn;
        destruct ok, (log s); reflexivity.
  - destruct (log s); reflexivity.
Qed.

(** [getMessage], as a function of the request and the world. *)
Lemma exec_get r σ :
  Method r = MethodGet -> HasPrefix (Path r) "/message/" = true ->
  exec (message s r) σ
  = let '((ct, ok, err), st) :=
        GetAndDelete (store σ) (TrimPrefix (Path r) "/message/") in
    match err with
    | Some _ =>
      (plain StatusInternalServerError,
       noted s Log.Error "get_delete_error" "message_get" (withStore st σ))
    | None =>
      if ok then (delivered ct, withStore st σ)
      else (plain StatusNotFound, withStore st σ)
    end.
Proof.
  intros Hm Hp. unfold_handlers. rewrite Hp, Hm. cbn [negb].
  change (String.eqb MethodGet MethodPut) with false. rewrite String.eqb_refl.
  unfold noted, plain, delivered, withStore.
  destruct (GetAndDelete _ _) as [[[ct ok] [e|]] st]; cbn;
    destruct ok, (log s); reflexivity.
Qed.

(** [message] on any other method. *)
Lemma exec_other r σ :
  Method r <> MethodPut -> Method r <> MethodGet ->
  HasPrefix (Path r) "/message/" = true ->
  exec (message s r) σ = (bare StatusMethodNotAllowed, σ).
Proof.
  intros N1 N2 Hp. unfold_handlers. rewrite Hp.
  apply String.eqb_neq in N1, N2. rewrite N1, N2. reflexivity.
Qed.

(** Which handler answered, and what it did. *)
Lemma served_by (fuel : nat) r σ resp σ' :
  ServeHTTP Reader s fuel r σ = Replied resp σ' ->
  (Path r = "/code"%string /\ Method r <> MethodGet
   /\ resp = bare StatusMethodNotAllowed /\ σ' = σ)
  \/ (Path r = "/code"%string /\ Method r = MethodGet
      /\ exists out,
           reserves Reader s (store σ) (drawn σ) out (store σ') (drawn σ')
           /\ resp = reservationReply out
           /\ logged σ' = logged σ ++ reservationLog s out)
  \/ (HasPrefix (Path r) "/message/" = true
      /\ (resp, σ') = exec (message s r) σ)
  \/ (Path r = "/health"%string /\ resp = plain StatusOK /\ σ' = σ).
Proof.
  intros H. rewrite ServeHTTP_routes in H.
  destruct (negb (pathIsClean (Path r))); [discriminate|].
  destruct (String.eqb_spec "/code" (Path r)) as [Ep|_].
  - destruct (String.eqb_spec (Method r) MethodGet) as [Em|Nm].
    + right; left. rewrite (getCode_GET _ _ _ _ _ _ Em) in H.
      destruct (getCode_loop Reader s fuel _) as [[exit|] [w1 σ1]] eqn:L;
        [|discriminate].
      apply getCode_loop_sound in L as (out & -> & -> & R & Lg).
      repeat split; auto. exists out.
      destruct out; cbn in H; inversion H; subst; repeat split; auto.
    + left. unfold getCode in H. pose proof Nm as Nm'.
      apply String.eqb_neq in Nm'. rewrite Nm' in H.
      cbn in H. inversion H; subst. auto.
  - destruct (HasPrefix (Path r) "/message/") eqn:Hp.
    + right; right; left. inversion H; subst. split; [reflexivity|].
      now destruct (exec (message s r) σ).
    + destruct (String.eqb_spec "/health" (Path r)) as [Eh|_]; [|discriminate].
      right; right; right. injection H as Hr Hs. rewrite <- Hr, <- Hs.
      split; [now symmetry|]. split; reflexivity.
Qed.

(** [message] on a path outside [/message/]. *)
Lemma exec_outside r σ :
  HasPrefix (Path r) "/message/" = false ->
  exec (message s r) σ = (bare StatusNotFound, σ).
Proof. intros Hp. unfold_handlers. rewrite Hp. reflexivity. Qed.

(** What a handler registered by [New] does once it is called and returns,
    whatever the request it is called on. *)
Lemma handled_by (pattern : string) (h : Handler) (fuel : nat) r σ w σ' :
  In (pattern, h) (New Reader s) ->
  h fuel r (NewRecorder, σ) = (true, (w, σ')) ->
  (pattern = "/code"%string /\ Method r <> MethodGet
   /\ finish w = bare StatusMethodNotAllowed /\ σ' = σ)
  \/ (pattern = "/code"%string /\ Method r = MethodGet
      /\ exists out,
           reserves Reader s (store σ) (drawn σ) out (store σ') (drawn σ')
           /\ finish w = reservationReply out
           /\ logged σ' = logged σ ++ reservationLog s out)
  \/ (pattern = "/message/"%string /\ (finish w, σ') = exec (message s r) σ)
  \/ (pattern = "/health"%string /\ finish w = plain StatusOK /\ σ' = σ).
Proof.
  intros Hin H.
  destruct Hin as [E|[E|[E|[]]]]; injection E as <- <-.
  - destruct (String.eqb_spec (Method r) MethodGet) as [Em|Nm].
    + right; left. rewrite (getCode_GET _ _ _ _ _ _ Em) in H.
      destruct (getCode_loop Reader s fuel _) as [[exit|] [w1 σ1]] eqn:L;
        [|discriminate].
      apply getCode_loop_sound in L as (out & -> & -> & R & Lg).
      repeat split; auto. exists out.
      destruct out; cbn in H; inversion H; subst; repeat split; auto.
    + left. unfold getCode in H. pose proof Nm as Nm'.
      apply String.eqb_neq in Nm'. rewrite Nm' in H.
      cbn in H. inversion H; subst. auto.
  - right; right; left. split; [reflexivity|].
    unfold exec. unfold bind, ret in H.
    destruct (message s r (NewRecorder, σ)) as [[] [w1 σ1]].
    now inversion H.
  - right; right; right. split; [reflexivity|].
    cbn in H. injection H as Hw Hs. rewrite <- Hw, <- Hs.
    split; reflexivity.
Qed.

End Anatomy.

(** The branches of the three handlers, one goal for each: the hypothesis
    [H : ServeHTTP ... = Replied resp σ'] is replaced by the response and
    the world of the branch. *)
Ltac branches H r s :=
  let Hpre := fresh "Hpre" in
  let Hexec := fresh "Hexec" in
  apply served_by in H
    as [(Hpath & Hmeth & -> & ->)
       |[(Hpath & Hmeth & out & Hres & -> & Hlog)
        |[(Hpre & Hexec)|(Hpath & -> & ->)]]];
  [ | destruct out as [code|]
    | destruct (String.eqb_spec (Method r) MethodPut) as [Hmeth|Hnput];
      [ rewrite (exec_put s r _ Hmeth Hpre) in Hexec;
        destruct (bodyLimit s <? Z.of_nat (String.length (Body r))) eqn:Hcap;
        [ | destruct (String.eqb (TrimSpace (Body r)) "") eqn:Hblank;
            [ | destruct (AttachCipher _ _ _ _) as [[ok [e|]] st] eqn:Hcall;
                [ | destruct ok ] ] ]
      | destruct (String.eqb_spec (Method r) MethodGet) as [Hmeth|Hnget];
        [ rewrite (exec_get s r _ Hmeth Hpre) in Hexec;
          destruct (GetAndDelete _ _) as [[[ct ok] [e|]] st] eqn:Hcall;
          [ | destruct ok ]
        | rewrite (exec_other s r _ Hnput Hnget Hpre) in Hexec ] ];
      injection Hexec as -> ->
    | ].

(** The branches of the three handlers for a request of any path, one goal
    for each: the hypotheses on the handler and its run are replaced by the
    response and the world of the branch. *)
Ltac handler_branches Hin H r s :=
  let Hexec := fresh "Hexec" in
  let Hresp := fresh "Hresp" in
  destruct (handled_by _ s _ _ _ r _ _ _ Hin H)
    as [(-> & Hmeth & Hresp & ->)
       |[(-> & Hmeth & out & Hres & Hresp & Hlog)
        |[(-> & Hexec)|(-> & Hresp & ->)]]];
  [ rewrite Hresp
  | rewrite Hresp; destruct out as [code|]
  | destruct (HasPrefix (Path r) "/message/") eqn:Hpre;
    [ destruct (String.eqb_spec (Method r) MethodPut) as [Hmeth|Hnput];
      [ rewrite (exec_put s r _ Hmeth Hpre) in Hexec;
        destruct (bodyLimit s <? Z.of_nat (String.length (Body r))) eqn:Hcap;
        [ | destruct (String.eqb (TrimSpace (Body r)) "") eqn:Hblank;
            [ | destruct (AttachCipher _ _ _ _) as [[ok [e|]] st] eqn:Hcall;
                [ | destruct ok ] ] ]
      | destruct (String.eqb_spec (Method r) MethodGet) as [Hmeth|Hnget];
        [ rewrite (exec_get s r _ Hmeth Hpre) in Hexec;
          destruct (GetAndDelete _ _) as [[[ct ok] [e|]] st] eqn:Hcall;
          [ | destruct ok ]
        | rewrite (exec_other s r _ Hnput Hnget Hpre) in Hexec ] ]
    | rewrite (exec_outside s r _ Hpre) in Hexec ];
    apply pair_equal_spec in Hexec as [Hresp ->]; rewrite Hresp
  | rewrite Hresp ].

(* ===================================================================== *)
(** ** What every reply looks like *)
(* ===================================================================== *)

(** X1: what the handlers of the server answer. Whichever handler registered
    by [New] is called, on whatever request and store, the reply it returns
    with has one of seven statuses, 200, 204, 400, 404, 405, 409 or 500; only
    a 200 has a body; and a 405 leaves the world (store, entropy, log)
    exactly as it was. What the mux answers on its own, for a path that no
    pattern matches or that it redirects, is not the reply of a handler. *)
Theorem handler_replies_have_seven_statuses_and_errors_no_body
  {S : Type} `{!Storage S} (Reader : nat -> Z) (s : Server)
  (pattern : string) (h : Handler) (fuel : nat) (r : Request)
  (σ σ' : World S) (w : ResponseWriter) :
  In (pattern, h) (New Reader s) ->
  h fuel r (NewRecorder, σ) = (true, (w, σ')) ->
  In (Status (finish w))
     [StatusOK; StatusNoContent; StatusBadRequest; StatusNotFound;
      StatusMethodNotAllowed; StatusConflict; StatusInternalServerError]
  /\ (Status (finish w) <> StatusOK -> Payload (finish w) = ""%string)
  /\ (Status (finish w) = StatusMethodNotAllowed -> σ' = σ).
Proof.
  intros Hin H. handler_branches Hin H r s; cbn;
    (split; [tauto | split; [intros N; try reflexivity; now contradiction N
                            | intros E; try reflexivity; discriminate E]]).
Qed.

(** [TestPostCode201]'s request: [getCode] answers the [POST] 405 with no
    body and the world is the one it found. *)
Lemma handler_replies_have_seven_statuses_and_errors_no_body_witness :
  let r := NewRequest "POST" "/code" "" in
  let σ := boot reservingMock in
  let h := getCode zeros newTestServer in
  let w := WriteHeader StatusMethodNotAllowed NewRecorder in
  (In ("/code"%string, h) (New zeros newTestServer)
   /\ h 1%nat r (NewRecorder, σ) = (true, (w, σ))
   /\ Status (finish w) = StatusMethodNotAllowed)
  /\ (In (Status (finish w))
        [StatusOK; StatusNoContent; StatusBadRequest; StatusNotFound;
         StatusMethodNotAllowed; StatusConflict; StatusInternalServerError]
      /\ (Status (finish w) <> StatusOK -> Payload (finish w) = ""%string)
      /\ (Status (finish w) = StatusMethodNotAllowed -> σ = σ)).
Proof.
  intros r σ h w. split.
  - split; [left; reflexivity | split; reflexivity].
  - apply (handler_replies_have_seven_statuses_and_errors_no_body zeros newTestServer
             "/code" h 1 r σ σ w); [left; reflexivity | reflexivity].
Defined.



(** X3: what the server tells its logger follows from the status. With no
    logger nothing is recorded. With one, a 500 comes with exactly one call
    at level Error, a 400 or a 409 with exactly one call at level Warn for
    the endpoint [message_put], and every other reply (200, 204, 404, 405)
    with none; a collision in the reservation loop is never logged. *)
Theorem logger_calls_follow_the_status
  {S : Type} `{!Storage S} (Reader : nat -> Z) (s : Server) (fuel : nat)
  (r : Request) (σ σ' : World S) (resp : Response) :
  ServeHTTP Reader s fuel r σ = Replied resp σ' ->
  exists new,
    logged σ' = logged σ ++ new
    /\ (log s = false -> new = [])
    /\ (log s = true ->
        (Status resp = StatusInternalServerError ->
         exists msg ep,
           new = [{| Log.level := Log.Error; Log.msg := msg; Log.endpoint := ep |}])
        /\ (Status resp = StatusBadRequest \/ Status resp = StatusConflict ->
            exists msg,
              new = [{| Log.level := Log.Warn; Log.msg := msg;
                        Log.endpoint := "message_put" |}])
        /\ (Status resp <> StatusInternalServerError ->
            Status resp <> StatusBadRequest ->
            Status resp <> StatusConflict -> new = [])).
Proof.
  intros H. branches H r s; unfold noted, withStore, reservationLog in *;
    try rewrite Hlog; destruct (log s); cbn;
    (first [ eexists [_]; split; [reflexivity|]
           | exists []; split; [now rewrite app_nil_r|] ]);
    (split; [intros Hf; try discriminate Hf; reflexivity|]);
    intros Ht; try discriminate Ht;
    (split; [intros E5; try discriminate E5; repeat eexists
            |split; [intros [E|E]; try discriminate E; repeat eexists
                    |intros N5 N4 N9; try reflexivity;
                     first [now contradiction N5 | now contradiction N4
                           | now contradiction N9]]]).
Qed.

Lemma logger_calls_follow_the_status_witness :
  let failing := {| reserveOK := false; attachOK := false; attachErr := Some "err"%string;
                    getVal := ""; getOK := false; getErr := None; pingErr := None |} in
  let r := NewRequest "PUT" "/message/xyz" "x" in
  let σ := boot failing in
  let out := exec (message newTestServer r) σ in
  ServeHTTP zeros newTestServer 0 r σ = Replied (fst out) (snd out)
  /\ Status (fst out) = StatusInternalServerError
  /\ logged (snd out)
     = [{| Log.level := Log.Error; Log.msg := "attach_cipher_error";
           Log.endpoint := "message_put" |}]
  /\ exists new,
       logged (snd out) = logged σ ++ new
       /\ (log newTestServer = false -> new = [])
       /\ (log newTestServer = true ->
           (Status (fst out) = StatusInternalServerError ->
            exists msg ep,
              new = [{| Log.level := Log.Error; Log.msg := msg; Log.endpoint := ep |}])
           /\ (Status (fst out) = StatusBadRequest \/ Status (fst out) = StatusConflict ->
               exists msg,
                 new = [{| Log.level := Log.Warn; Log.msg := msg;
                           Log.endpoint := "message_put" |}])
           /\ (Status (fst out) <> StatusInternalServerError ->
               Status (fst out) <> StatusBadRequest ->
               Status (fst out) <> StatusConflict -> new = [])).
Proof.
  intros failing r σ out. split; [reflexivity|]. split; [reflexivity|].
  split; [reflexivity|].
  apply (logger_calls_follow_the_status zeros newTestServer 0 r σ (snd out) (fst out)).
  reflexivity.
Defined.

(** X6: [/health] is answered 200 with the headers of [secHeaders] and no
    body for every method and every body, and the world is left as it was:
    the handler makes no call on the store, [Ping] included, so the answer
    does not depend on the store. *)
Theorem health_is_200_whatever_the_store
  {S : Type} `{!Storage S} (Reader : nat -> Z) (s : Server) (fuel : nat)
  (method body : string) (σ : World S) :
  ServeHTTP Reader s fuel {| Method := method; Path := "/health"; Body := body |} σ
  = Replied (plain StatusOK) σ.
Proof.
  rewrite ServeHTTP_routes. cbn. now destruct σ.
Qed.

(** X7: for a [PUT] under [/message/] the answer is 400 exactly when the
    body has more bytes than the limit or is empty once trimmed, and a 400
    leaves the store as it was. The limit is [MaxBodyBytes] when that is
    positive and 1 MiB otherwise, so it is always positive. *)
Theorem put_is_400_iff_oversized_or_blank
  {S : Type} `{!Storage S} (s : Server) (r : Request) (σ : World S) :
  Method r = MethodPut ->
  HasPrefix (Path r) "/message/" = true ->
  let out := exec (message s r) σ in
  (Status (fst out) = StatusBadRequest <->
   bodyLimit s < Z.of_nat (String.length (Body r))
   \/ TrimSpace (Body r) = ""%string)
  /\ (Status (fst out) = StatusBadRequest -> store (snd out) = store σ)
  /\ 0 < bodyLimit s
  /\ (MaxBodyBytes (cfg s) <= 0 -> bodyLimit s = 1048576)
  /\ (0 < MaxBodyBytes (cfg s) -> bodyLimit s = MaxBodyBytes (cfg s)).
Proof.
  intros Hm Hp out. unfold out. rewrite (exec_put s r σ Hm Hp).
  assert (Hlim : 0 < bodyLimit s
                 /\ (MaxBodyBytes (cfg s) <= 0 -> bodyLimit s = 1048576)
                 /\ (0 < MaxBodyBytes (cfg s) -> bodyLimit s = MaxBodyBytes (cfg s))).
  { unfold bodyLimit. destruct (Z.leb_spec (MaxBodyBytes (cfg s)) 0);
      cbn; repeat split; intros; lia. }
  destruct (Z.ltb_spec (bodyLimit s) (Z.of_nat (String.length (Body r)))) as [C|C].
  - unfold noted. destruct (log s); cbn;
      (split; [tauto | split; [reflexivity | exact Hlim]]).
  - destruct (String.eqb_spec (TrimSpace (Body r)) "") as [B|B].
    + unfold noted. destruct (log s); cbn;
        (split; [tauto | split; [reflexivity | exact Hlim]]).
    + destruct (AttachCipher _ _ _ _) as [[ok [e|]] st]; [|destruct ok];
        unfold noted, withStore; destruct (log s); cbn;
        (split; [split; [discriminate | intros [L|L]; [lia | now contradiction B]]
                | split; [discriminate | exact Hlim]]).
Qed.

Lemma put_is_400_iff_oversized_or_blank_witness :
  let tiny := {| cfg := {| Addr := ":0"; PlaceholderTTL := Minute; MessageTTL := Hour;
                           ReadTimeout := 0; ReadHeaderTimeout := 0; WriteTimeout := 0;
                           IdleTimeout := 0; MaxBodyBytes := 4 |};
                 log := false |} in
  let r := NewRequest "PUT" "/message/xyz" "12345" in
  let σ := boot attachingMock in
  let out := exec (message tiny r) σ in
  bodyLimit tiny = 4
  /\ Status (fst out) = StatusBadRequest
  /\ Status (fst (exec (message tiny (NewRequest "PUT" "/message/xyz" "1234")) σ))
     = StatusNoContent
  /\ ((Status (fst out) = StatusBadRequest <->
       bodyLimit tiny < Z.of_nat (String.length (Body r))
       \/ TrimSpace (Body r) = ""%string)
      /\ (Status (fst out) = StatusBadRequest -> store (snd out) = store σ)
      /\ 0 < bodyLimit tiny
      /\ (MaxBodyBytes (cfg tiny) <= 0 -> bodyLimit tiny = 1048576)
      /\ (0 < MaxBodyBytes (cfg tiny) -> bodyLimit tiny = MaxBodyBytes (cfg tiny))).
Proof.
  intros tiny r σ out. split; [reflexivity|]. split; [reflexivity|].
  split; [reflexivity|].
  apply (put_is_400_iff_oversized_or_blank tiny r σ); reflexivity.
Defined.

(* ===================================================================== *)
(** ** The reservation loop *)
(* ===================================================================== *)

Section Livelock.
Context {S : Type} `{!Storage S}.
Variable Reader : nat -> Z.
Variable s : Server.
Variable colliding : S -> Prop.
Hypothesis collides : forall st code ttl,
  colliding st ->
  fst (ReserveCode st code ttl) = (false, None)
  /\ colliding (snd (ReserveCode st code ttl)).

Lemma getCode_loop_spins (fuel : nat) : forall w (σ : World S),
  colliding (store σ) -> fst (getCode_loop Reader s fuel (w, σ)) = None.
Proof.
  induction fuel as [|fuel IH]; intros w σ C; [reflexivity|].
  rewrite getCode_loop_round.
  destruct (collides (store σ) (candidate Reader (drawn σ))
              (PlaceholderTTL (cfg s)) C) as [E C'].
  destruct (ReserveCode _ _ _) as [[ok err] st]. simpl in E, C'.
  inversion E; subst. now apply IH.
Qed.

End Livelock.

(** X8: the reservation loop has no bound. On a store where every
    [ReserveCode] reports a collision and remains such a store, a
    [GET /code] is never answered: however many rounds are run, the handler
    is still in its loop. *)
Theorem getCode_spins_while_every_candidate_collides
  {S : Type} `{!Storage S} (Reader : nat -> Z) (s : Server) (r : Request)
  (σ : World S) (colliding : S -> Prop) :
  Method r = MethodGet ->
  Path r = "/code"%string ->
  colliding (store σ) ->
  (forall st code ttl,
      colliding st ->
      fst (ReserveCode st code ttl) = (false, None)
      /\ colliding (snd (ReserveCode st code ttl))) ->
  forall fuel, ServeHTTP Reader s fuel r σ = Spinning.
Proof.
  intros Hm Hp C Hc fuel.
  rewrite (ServeHTTP_code _ _ _ _ _ Hp), (getCode_GET _ _ _ _ _ _ Hm).
  pose proof (getCode_loop_spins Reader s colliding Hc fuel
                (Header_Set "Pragma" "no-cache"
                   (Header_Set "X-Content-Type-Options" "nosniff"
                      (Header_Set "Cache-Control" "no-store"
                         (Header_Set "Referrer-Policy" "no-referrer" NewRecorder))))
                σ C) as K.
  destruct (getCode_loop Reader s fuel _) as [[exit|] [w' σ']]; [discriminate K|].
  reflexivity.
Qed.

(** [&mockStore{}]: [reserveOK] is false, so every reservation collides. *)
Lemma getCode_spins_while_every_candidate_collides_witness :
  let r := NewRequest "GET" "/code" "" in
  (Method r = MethodGet /\ Path r = "/code"%string
   /\ reserveOK (store (boot zeroMock)) = false)
  /\ forall fuel, ServeHTTP counting newTestServer fuel r (boot zeroMock) = Spinning.
Proof.
  intros r. split; [repeat split; reflexivity|].
  apply (getCode_spins_while_every_candidate_collides counting newTestServer r
           (boot zeroMock) (fun m => reserveOK m = false));
    [reflexivity | reflexivity | reflexivity |].
  intros st code ttl Hst. cbn. split; [now rewrite Hst | exact Hst].
Defined.

(* ===================================================================== *)
(** ** The calls that reach the store *)
(* ===================================================================== *)

Section Calls.
Context {S : Type} `{!Storage S}.
Variable Reader : nat -> Z.
Variable s : Server.

(** The [ReserveCode] calls of [n] rounds started with [k] values drawn. *)
Local Abbreviation rounds k n :=
  (map (fun i => CallReserveCode (candidate Reader (k + 8 * i))
                   (PlaceholderTTL (cfg s))) (seq 0 n)).

Lemma rounds_succ (k n : nat) :
  rounds k (Datatypes.S n)
  = CallReserveCode (candidate Reader k) (PlaceholderTTL (cfg s))
    :: rounds (k + 8) n.
Proof.
  cbn [seq map]. rewrite Nat.mul_0_r, Nat.add_0_r. f_equal.
  rewrite <- seq_shift, map_map. apply map_ext. intros i. do 2 f_equal. lia.
Qed.

(** A run of the reservation algorithm on a recording store makes one
    [ReserveCode] call for each round, for the candidates that [candidate]
    reads eight positions of [Reader] apart, and no other call. *)
Lemma reserves_calls (st : Traced S) k out st' k' :
  reserves Reader s st k out st' k' ->
  exists n, k' = (k + 8 * Datatypes.S n)%nat
            /\ calls st' = calls st ++ rounds k (Datatypes.S n).
Proof.
  induction 1 as [st k st' E | st k ok e st' E | st k st' out st'' k'' E R IH].
  - exists 0%nat. split; [lia|]. rewrite rounds_succ. cbn in E. unfold traced in E.
    inversion E; subst. reflexivity.
  - exists 0%nat. split; [lia|]. rewrite rounds_succ. cbn in E. unfold traced in E.
    inversion E; subst. reflexivity.
  - destruct IH as (n & -> & Hc). exists (Datatypes.S n). split; [lia|].
    rewrite Hc, (rounds_succ k (Datatypes.S n)). cbn in E. unfold traced in E.
    inversion E; subst. cbn [calls]. now rewrite <- app_assoc.
Qed.

End Calls.

(** The calls of one request, with what the body passed on its way to
    [AttachCipher]. *)
Lemma storage_calls_shape
  {S : Type} `{!Storage S} (Reader : nat -> Z) (s : Server) (fuel : nat)
  (r : Request) (τ τ' : World (Traced S)) (resp : Response) :
  ServeHTTP Reader s fuel r τ = Replied resp τ' ->
  exists new,
    calls (store τ') = calls (store τ) ++ new
    /\ (new = []
        \/ (new = [CallAttachCipher (TrimPrefix (Path r) "/message/")
                     (TrimSpace (Body r)) (MessageTTL (cfg s))]
            /\ Z.of_nat (String.length (Body r)) <= bodyLimit s
            /\ TrimSpace (Body r) <> ""%string)
        \/ new = [CallGetAndDelete (TrimPrefix (Path r) "/message/")]
        \/ (exists n,
              new = map (fun i => CallReserveCode
                                    (candidate Reader (drawn τ + 8 * i))
                                    (PlaceholderTTL (cfg s)))
                        (seq 0 (Datatypes.S n)))).
Proof.
  intros H. branches H r s.
  1, 4, 5, 12, 13:
    exists []; rewrite app_nil_r; unfold noted; destruct (log s); cbn;
    (split; [reflexivity | left; reflexivity]).
  1, 2:
    destruct (reserves_calls Reader s _ _ _ _ _ Hres) as (n & Hk & Hc);
    eexists; split; [exact Hc|]; right; right; right; exists n; reflexivity.
  1, 2, 3:
    cbn in Hcall; unfold traced in Hcall; inversion Hcall; subst; clear Hcall;
    eexists; unfold noted, withStore; destruct (log s); cbn;
    (split; [reflexivity|]); right; left;
    (split; [reflexivity|]);
    (split; [now apply Z.ltb_ge | now apply String.eqb_neq]).
  all:
    cbn in Hcall; unfold traced in Hcall; inversion Hcall; subst; clear Hcall;
    eexists; unfold noted, withStore; destruct (log s); cbn;
    (split; [reflexivity|]); right; right; left; reflexivity.
Qed.

(** X5: what [AttachCipher] is given. Every [AttachCipher] call a request
    adds to the record of a recording store carries the message TTL and a
    payload that is not empty, has no white space at either end (so
    trimming it again changes nothing) and has no more bytes than the body
    limit. *)
Theorem attach_cipher_gets_a_trimmed_nonempty_payload
  {S : Type} `{!Storage S} (Reader : nat -> Z) (s : Server) (fuel : nat)
  (r : Request) (τ τ' : World (Traced S)) (resp : Response)
  (code ct : string) (ttl : Z) :
  ServeHTTP Reader s fuel r τ = Replied resp τ' ->
  In (CallAttachCipher code ct ttl) (calls (store τ')) ->
  In (CallAttachCipher code ct ttl) (calls (store τ))
  \/ (ct <> ""%string
      /\ leadingSpace ct = false /\ trailingSpace ct = false
      /\ TrimSpace ct = ct
      /\ Z.of_nat (String.length ct) <= bodyLimit s
      /\ ttl = MessageTTL (cfg s)).
Proof.
  intros H Hin.
  destruct (storage_calls_shape Reader s fuel r τ τ' resp H)
    as (new & Hc & [-> | [(-> & Hcap & Hblank) | [-> | (n & ->)]]]);
    rewrite Hc in Hin; apply in_app_or in Hin as [Hin|Hin]; auto.
  - destruct Hin.
  - destruct Hin as [E|[]]. inversion E; subst. right.
    destruct (TrimSpace_trimmed (Body r)) as [L R].
    repeat split; auto.
    + apply TrimSpace_idempotent.
    + pose proof (TrimSpace_length (Body r)). lia.
  - destruct Hin as [E|[]]. discriminate E.
  - apply in_map_iff in Hin as (i & E & _). discriminate E.
Qed.

(** [TestPutMessageValid] on a recording store: the one [AttachCipher] call
    carries the body and the hour of the test configuration. *)
Lemma attach_cipher_gets_a_trimmed_nonempty_payload_witness :
  let r := NewRequest "PUT" "/message/xyz" " AAAAAAAAAAAAAAAAYWJj " in
  let τ := boot {| inner := attachingMock; calls := [] |} in
  let out := exec (message newTestServer r) τ in
  ServeHTTP zeros newTestServer 0 r τ = Replied (fst out) (snd out)
  /\ In (CallAttachCipher "xyz" "AAAAAAAAAAAAAAAAYWJj" Hour) (calls (store (snd out)))
  /\ (In (CallAttachCipher "xyz" "AAAAAAAAAAAAAAAAYWJj" Hour) (calls (store τ))
      \/ ("AAAAAAAAAAAAAAAAYWJj"%string <> ""%string
          /\ leadingSpace "AAAAAAAAAAAAAAAAYWJj" = false
          /\ trailingSpace "AAAAAAAAAAAAAAAAYWJj" = false
          /\ TrimSpace "AAAAAAAAAAAAAAAAYWJj" = "AAAAAAAAAAAAAAAAYWJj"%string
          /\ Z.of_nat (String.length "AAAAAAAAAAAAAAAAYWJj") <= bodyLimit newTestServer
          /\ Hour = MessageTTL (cfg newTestServer))).
Proof.
  intros r τ out.
  assert (E : ServeHTTP zeros newTestServer 0 r τ = Replied (fst out) (snd out))
    by reflexivity.
  assert (I : In (CallAttachCipher "xyz" "AAAAAAAAAAAAAAAAYWJj" Hour)
                 (calls (store (snd out)))) by (left; reflexivity).
  split; [exact E|]. split; [exact I|].
  exact (attach_cipher_gets_a_trimmed_nonempty_payload zeros newTestServer 0 r τ
           (snd out) (fst out) "xyz" "AAAAAAAAAAAAAAAAYWJj" Hour E I).
Defined.

(* ===================================================================== *)
(** ** [validBase64] and the payload *)
(* ===================================================================== *)

(** X9: [validBase64] looks at each byte on its own. A concatenation is
    accepted exactly when it is not empty and each part is accepted or
    empty; nothing depends on the length of the string or on where the [=]
    signs stand. *)
Theorem validBase64_of_a_concatenation (s1 s2 : string) :
  validBase64 (s1 +:+ s2) = true
  <-> (validBase64 s1 = true \/ s1 = ""%string)
      /\ (validBase64 s2 = true \/ s2 = ""%string)
      /\ (s1 <> ""%string \/ s2 <> ""%string).
Proof.
  rewrite !validBase64_allBase64, allBase64_app, andb_true_iff.
  assert (E : s1 +:+ s2 <> ""%string <-> s1 <> ""%string \/ s2 <> ""%string).
  { destruct s1 as [|c1 s1].
    - change (""%string +:+ s2) with s2. tauto.
    - change (String c1 s1 +:+ s2) with (String c1 (s1 +:+ s2)).
      split; [left|]; discriminate. }
  rewrite E.
  assert (A1 : s1 = ""%string -> allBase64 s1 = true) by (intros ->; reflexivity).
  assert (A2 : s2 = ""%string -> allBase64 s2 = true) by (intros ->; reflexivity).
  destruct (string_dec s1 ""), (string_dec s2 ""); tauto.
Qed.

(** X10: a body that [validBase64] accepts is stored byte for byte. For a
    [PUT] under [/message/] with such a body within the size limit,
    trimming changes nothing, and the one call a recording store sees is
    [AttachCipher] with the code of the path, the body itself and the
    message TTL. *)
Theorem valid_base64_body_is_attached_verbatim
  {S : Type} `{!Storage S} (s : Server) (r : Request) (τ : World (Traced S)) :
  Method r = MethodPut ->
  HasPrefix (Path r) "/message/" = true ->
  Z.of_nat (String.length (Body r)) <= bodyLimit s ->
  validBase64 (Body r) = true ->
  TrimSpace (Body r) = Body r
  /\ calls (store (snd (exec (message s r) τ)))
     = calls (store τ)
       ++ [CallAttachCipher (TrimPrefix (Path r) "/message/") (Body r)
             (MessageTTL (cfg s))].
Proof.
  intros Hm Hp Hl V.
  destruct (validBase64_no_outer_space _ V) as [L R].
  pose proof (TrimSpace_fixed _ L R) as E.
  split; [exact E|].
  assert (Hne : TrimSpace (Body r) <> ""%string).
  { rewrite E. intros K. rewrite K in V. discriminate V. }
  destruct (put_attach s r τ Hm Hp Hl Hne) as (Hs & _).
  rewrite Hs, E. reflexivity.
Qed.

(** The body of [TestPutMessageValid]: twelve zero bytes and [abc], in
    base64. *)
Lemma valid_base64_body_is_attached_verbatim_witness :
  let r := NewRequest "PUT" "/message/xyz" "AAAAAAAAAAAAAAAAYWJj" in
  let τ := boot {| inner := attachingMock; calls := [] |} in
  (Method r = MethodPut /\ HasPrefix (Path r) "/message/" = true
   /\ validBase64 (Body r) = true)
  /\ TrimSpace (Body r) = Body r
  /\ calls (store (snd (exec (message newTestServer r) τ)))
     = calls (store τ)
       ++ [CallAttachCipher (TrimPrefix (Path r) "/message/") (Body r)
             (MessageTTL (cfg newTestServer))].
Proof.
  intros r τ. split; [repeat split; reflexivity|].
  apply (valid_base64_body_is_attached_verbatim newTestServer r τ);
    [reflexivity | reflexivity | vm_compute; discriminate | reflexivity].
Defined.

(* ===================================================================== *)
(** ** The codes *)
(* ===================================================================== *)

Section CodeFacts.
Variable Reader : nat -> Z.

Lemma letterAt_inLetters (z : Z) :
  0 <= z < 57 -> inLetters (letterAt z) = true.
Proof.
  intros Hz. replace z with (Z.of_nat (Z.to_nat z)) by lia.
  remember (Z.to_nat z) as n eqn:En.
  assert (Hn : (n < 57)%nat) by lia. clear En Hz.
  do 57 (destruct n as [|n]; [reflexivity|]). lia.
Qed.

Lemma lettersFrom_allLetters (n : nat) : forall k,
  allLetters (lettersFrom Reader k n) = true.
Proof.
  induction n as [|n IH]; intros k; [reflexivity|].
  cbn [lettersFrom allLetters]. rewrite IH, andb_true_r.
  apply letterAt_inLetters. apply Z.mod_pos_bound. reflexivity.
Qed.

Lemma inLetters_plain (c : ascii) :
  inLetters c = true ->
  alphanumeric c = true
  /\ String.index 0 (String c EmptyString) confusable = None.
Proof.
  destruct c as [[] [] [] [] [] [] [] []]; vm_compute; intros H;
    try discriminate H; split; reflexivity.
Qed.

End CodeFacts.

(** X11: [generateCode(n)] returns [n] characters, each one of the 57
    letters of its alphabet, whatever indices [rand.Int] hands back, and
    touches neither the response, the store nor the log. A letter of the
    alphabet is an ASCII letter or digit and is none of the look-alikes [0],
    [O], [1], [l], [I]. *)
Theorem generateCode_yields_letters_of_the_alphabet
  {S : Type} `{!Storage S} (Reader : nat -> Z) (n : nat)
  (w : ResponseWriter) (σ : World S) :
  let out := generateCode Reader n (w, σ) in
  String.length (fst out) = n
  /\ allLetters (fst out) = true
  /\ fst (snd out) = w
  /\ store (snd (snd out)) = store σ
  /\ logged (snd (snd out)) = logged σ
  /\ forall c, inLetters c = true ->
       alphanumeric c = true
       /\ String.index 0 (String c EmptyString) confusable = None.
Proof.
  intros out. unfold out. rewrite generateCode_run. cbn [fst snd store logged].
  split; [apply length_lettersFrom|]. split; [apply lettersFrom_allLetters|].
  repeat split; try reflexivity; now apply inLetters_plain.
Qed.

(* ===================================================================== *)
(** ** One request, one kind of storage call *)
(* ===================================================================== *)

(** X4: the calls a request makes on the store, read on a store that
    records them. A reply comes with no call at all, or with exactly one
    [AttachCipher] (a [PUT] under [/message/], with the code of the path, the
    trimmed body and the message TTL), or with exactly one [GetAndDelete] (a
    [GET] under [/message/], with the code of the path), or, for a
    [GET /code], with one or more [ReserveCode] calls and nothing else, each
    with the placeholder TTL and a code of eight letters of the alphabet.
    [Ping] is never called, and a request that makes no [ReserveCode] call
    does not read the entropy source. *)
Theorem storage_calls_by_branch
  {S : Type} `{!Storage S} (Reader : nat -> Z) (s : Server) (fuel : nat)
  (r : Request) (τ τ' : World (Traced S)) (resp : Response) :
  ServeHTTP Reader s fuel r τ = Replied resp τ' ->
  exists new,
    calls (store τ') = calls (store τ) ++ new
    /\ ~ In CallPing new
    /\ ((new = [] /\ drawn τ' = drawn τ)
        \/ (new = [CallAttachCipher (TrimPrefix (Path r) "/message/")
                     (TrimSpace (Body r)) (MessageTTL (cfg s))]
            /\ Method r = MethodPut /\ drawn τ' = drawn τ)
        \/ (new = [CallGetAndDelete (TrimPrefix (Path r) "/message/")]
            /\ Method r = MethodGet /\ drawn τ' = drawn τ)
        \/ (exists codes,
              codes <> []
              /\ new = map (fun code => CallReserveCode code (PlaceholderTTL (cfg s)))
                           codes
              /\ Forall (fun code => String.length code = 8%nat
                                     /\ allLetters code = true) codes
              /\ Path r = "/code"%string /\ Method r = MethodGet)).
Proof.
  intros H. branches H r s.
  1, 4, 5, 12, 13:
    exists []; rewrite app_nil_r; unfold noted; destruct (log s); cbn;
    (split; [reflexivity | split; [tauto | left; split; reflexivity]]).
  1, 2:
    destruct (reserves_calls Reader s _ _ _ _ _ Hres) as (n & Hk & Hc);
    eexists; split; [exact Hc|]; split;
    [ rewrite in_map_iff; intros (i & Hi & _); discriminate Hi
    | right; right; right;
      exists (map (fun i => candidate Reader (drawn τ + 8 * i)) (seq 0 (Datatypes.S n)));
      split; [discriminate|]; split; [now rewrite map_map|];
      split; [|split; assumption];
      apply List.Forall_forall; intros cand Hcand;
      apply in_map_iff in Hcand as (i & <- & _);
      split; [apply length_lettersFrom | apply lettersFrom_allLetters] ].
  1, 2, 3:
    cbn in Hcall; unfold traced in Hcall; inversion Hcall; subst; clear Hcall;
    eexists; unfold noted, withStore; destruct (log s); cbn;
    (split; [reflexivity|]);
    (split; [intros [K|[]]; discriminate K|]);
    right; left; repeat split; assumption.
  all:
    cbn in Hcall; unfold traced in Hcall; inversion Hcall; subst; clear Hcall;
    eexists; unfold noted, withStore; destruct (log s); cbn;
    (split; [reflexivity|]);
    (split; [intros [K|[]]; discriminate K|]);
    right; right; left; repeat split; assumption.
Qed.

Lemma storage_calls_by_branch_witness :
  let r := NewRequest "GET" "/code" "" in
  let τ := boot {| inner := reservingMock; calls := [] |} in
  let served := ServeHTTP counting newTestServer 1 r τ in
  let resp := default (bare 0) (replyOf served) in
  let τ' := worldOf τ served in
  ServeHTTP counting newTestServer 1 r τ = Replied resp τ'
  /\ calls (store τ') = [CallReserveCode "ABCDEFGH" Minute]
  /\ exists new,
       calls (store τ') = calls (store τ) ++ new
       /\ ~ In CallPing new
       /\ ((new = [] /\ drawn τ' = drawn τ)
           \/ (new = [CallAttachCipher (TrimPrefix (Path r) "/message/")
                        (TrimSpace (Body r)) (MessageTTL (cfg newTestServer))]
               /\ Method r = MethodPut /\ drawn τ' = drawn τ)
           \/ (new = [CallGetAndDelete (TrimPrefix (Path r) "/message/")]
               /\ Method r = MethodGet /\ drawn τ' = drawn τ)
           \/ (exists codes,
                 codes <> []
                 /\ new = map (fun code => CallReserveCode code
                                             (PlaceholderTTL (cfg newTestServer)))
                              codes
                 /\ Forall (fun code => String.length code = 8%nat
                                        /\ allLetters code = true) codes
                 /\ Path r = "/code"%string /\ Method r = MethodGet)).
Proof.
  intros r τ served resp τ'.
  assert (E : ServeHTTP counting newTestServer 1 r τ = Replied resp τ')
    by (vm_compute; reflexivity).
  split; [exact E|]. split; [vm_compute; reflexivity|].
  exact (storage_calls_by_branch counting newTestServer 1 r τ τ' resp E).
Defined.

Section Addressing.

Lemma inLetters_not_slash (c : ascii) :
  inLetters c = true -> Ascii.eqb c "/"%char = false.
Proof.
  destruct c as [[] [] [] [] [] [] [] []]; vm_compute; intros H;
    try discriminate H; reflexivity.
Qed.

Lemma splitSlash_letters (code : string) :
  allLetters code = true -> splitSlash code = [code].
Proof.
  induction code as [|c t IH]; [reflexivity|].
  cbn [allLetters]. intros H. apply andb_true_iff in H as [Hc Ht].
  cbn [splitSlash]. rewrite (inLetters_not_slash c Hc), (IH Ht). reflexivity.
Qed.

Lemma dotSegment_letters (code : string) :
  allLetters code = true -> dotSegment code = false.
Proof.
  intros H. unfold dotSegment.
  destruct (String.eqb_spec code ".") as [->|_]; [discriminate H|].
  destruct (String.eqb_spec code "..") as [->|_]; [discriminate H|].
  reflexivity.
Qed.

Lemma message_path (code : string) :
  "/message/" +:+ code
  = String "/" (String "m" (String "e" (String "s" (String "s"
      (String "a" (String "g" (String "e" (String "/" code)))))))).
Proof. reflexivity. Qed.

Lemma message_path_clean (code : string) :
  allLetters code = true -> pathIsClean ("/message/" +:+ code) = true.
Proof.
  intros H. rewrite message_path. unfold pathIsClean.
  cbn [splitSlash]. 
  change (Ascii.eqb "/" "/") with true. cbv iota.
  change (Ascii.eqb "m" "/") with false.
  change (Ascii.eqb "e" "/") with false.
  change (Ascii.eqb "s" "/") with false.
  change (Ascii.eqb "a" "/") with false.
  change (Ascii.eqb "g" "/") with false.
  cbv iota.
  rewrite (splitSlash_letters code H). cbv iota.
  cbn [cleanSegments]. rewrite (dotSegment_letters code H). reflexivity.
Qed.

Lemma TrimPrefix_message (code : string) :
  TrimPrefix ("/message/" +:+ code) "/message/" = code.
Proof.
  rewrite message_path. unfold TrimPrefix, HasPrefix, sliceFrom.
  cbn [String.prefix String.length substring Nat.sub].
  repeat (destruct (ascii_dec _ _) as [_|N]; [|now contradiction N]).
  assert (P : String.prefix "" code = true) by now destruct code.
  rewrite P, Nat.sub_0_r. apply substring_all.
Qed.

Lemma HasPrefix_message (code : string) :
  HasPrefix ("/message/" +:+ code) "/message/" = true.
Proof.
  rewrite message_path. unfold HasPrefix. cbn [String.prefix].
  repeat (destruct (ascii_dec _ _) as [_|N]; [|now contradiction N]).
  now destruct code.
Qed.

End Addressing.

(** X12: a code made of letters of the alphabet is an address. For such a
    code and any method and body, the request for [/message/<code>] is
    handed to [message] (the mux neither redirects nor rejects it), and the
    code the handlers cut from the path is the code itself. Every candidate
    the reservation loop generates is such a code. *)
Theorem letters_code_addresses_message
  {S : Type} `{!Storage S} (Reader : nat -> Z) (s : Server) (fuel : nat)
  (code method body : string) (σ : World S) :
  allLetters code = true ->
  let r := {| Method := method; Path := "/message/" +:+ code; Body := body |} in
  ServeHTTP Reader s fuel r σ
  = Replied (fst (exec (message s r) σ)) (snd (exec (message s r) σ))
  /\ TrimPrefix (Path r) "/message/" = code
  /\ forall k, allLetters (candidate Reader k) = true.
Proof.
  intros H r. split; [|split].
  - apply ServeHTTP_message_clean; cbn [Path r].
    + apply HasPrefix_message.
    + now apply message_path_clean.
  - apply TrimPrefix_message.
  - intros k. apply lettersFrom_allLetters.
Qed.

Lemma letters_code_addresses_message_witness :
  let code := candidate counting 0 in
  let r := {| Method := "GET"; Path := "/message/" +:+ code; Body := "" |} in
  let σ := boot holdingMock in
  allLetters code = true
  /\ code = "ABCDEFGH"%string
  /\ (ServeHTTP counting newTestServer 0 r σ
      = Replied (fst (exec (message newTestServer r) σ))
                (snd (exec (message newTestServer r) σ))
      /\ TrimPrefix (Path r) "/message/" = code
      /\ forall k, allLetters (candidate counting k) = true).
Proof.
  intros code r σ. split; [reflexivity|]. split; [reflexivity|].
  apply (letters_code_addresses_message counting newTestServer 0 code "GET" "" σ).
  reflexivity.
Defined.

(* ===================================================================== *)
(** ** One code through the three handlers *)
(* ===================================================================== *)

Section CodeInReply.

Lemma length_append (a b : string) :
  String.length (a +:+ b) = (String.length a + String.length b)%nat.
Proof.
  induction a as [|c a IH]; [reflexivity|].
  change (String c a +:+ b) with (String c (a +:+ b)). simpl. now rewrite IH.
Qed.

Lemma append_cancel_r (a1 : string) : forall a2 b : string,
  a1 +:+ b = a2 +:+ b -> a1 = a2.
Proof.
  induction a1 as [|c1 a1 IH]; intros a2 b E.
  - destruct a2 as [|c2 a2]; [reflexivity|].
    apply (f_equal String.length) in E. rewrite !length_append in E.
    simpl in E. lia.
  - destruct a2 as [|c2 a2].
    + apply (f_equal String.length) in E. rewrite !length_append in E.
      simpl in E. lia.
    + change (String c1 (a1 +:+ b) = String c2 (a2 +:+ b)) in E.
      injection E as -> E. f_equal. now apply (IH a2 b).
Qed.

(** The body of the reply determines the code. *)
Lemma encodeCode_injective (c1 c2 : string) :
  encodeCode c1 = encodeCode c2 -> c1 = c2.
Proof.
  unfold encodeCode, quote, newline. intros E.
  change (String "{" (String "034" (String "c" (String "o" (String "d"
            (String "e" (String "034" (String ":" (String "034"
               (c1 +:+ (String "034" (String "}" (String "010" ""))))))))))))
          = String "{" (String "034" (String "c" (String "o" (String "d"
            (String "e" (String "034" (String ":" (String "034"
               (c2 +:+ (String "034" (String "}" (String "010" "")))))))))))))
    in E.
  injection E as E. now apply append_cancel_r in E.
Qed.

End CodeInReply.

(** X13: the three handlers speak of the same code. When [GET /code] is
    answered 200 with the JSON of a code, that code is made of letters of the
    alphabet and the last call the store received is [ReserveCode] for it
    with the placeholder TTL, after [ReserveCode] calls only. From then on,
    in any world, a readable non-blank [PUT /message/<code>] makes exactly
    the call [AttachCipher] for that code with the trimmed body and the
    message TTL, and a [GET /message/<code>] exactly the call [GetAndDelete]
    for that code. *)
Theorem one_code_through_the_three_handlers
  {S : Type} `{!Storage S} (Reader : nat -> Z) (s : Server) (fuel : nat)
  (r : Request) (τ τ1 : World (Traced S)) (resp : Response) (code : string) :
  Path r = "/code"%string ->
  ServeHTTP Reader s fuel r τ = Replied resp τ1 ->
  Status resp = StatusOK ->
  Payload resp = encodeCode code ->
  allLetters code = true
  /\ (exists earlier,
        calls (store τ1)
        = calls (store τ) ++ earlier
          ++ [CallReserveCode code (PlaceholderTTL (cfg s))]
        /\ Forall (fun c => exists other,
                     c = CallReserveCode other (PlaceholderTTL (cfg s)))
                  earlier)
  /\ forall (τ2 : World (Traced S)) (body : string),
       let put := NewRequest "PUT" ("/message/" +:+ code) body in
       let get := NewRequest "GET" ("/message/" +:+ code) "" in
       (Z.of_nat (String.length body) <= bodyLimit s ->
        TrimSpace body <> ""%string ->
        calls (store (worldOf τ2 (ServeHTTP Reader s fuel put τ2)))
        = calls (store τ2)
          ++ [CallAttachCipher code (TrimSpace body) (MessageTTL (cfg s))])
       /\ calls (store (worldOf τ2 (ServeHTTP Reader s fuel get τ2)))
          = calls (store τ2) ++ [CallGetAndDelete code].
Proof.
  intros Hpath H H200 Hpay.
  apply served_by in H
    as [(_ & _ & -> & _)
       |[(_ & _ & out & Hres & -> & _)
        |[(Hpre & _)|(Hh & _)]]].
  - discriminate H200.
  - destruct out as [code'|]; [|discriminate H200].
    cbn in Hpay. apply encodeCode_injective in Hpay. subst code'.
    destruct (reserves_success_inv _ _ _ _ _ _ _ Hres) as (st0 & k0 & Ec & Ek & _).
    destruct (reserves_calls _ _ _ _ _ _ _ Hres) as (n & Ek' & Hc).
    assert (Hl : allLetters code = true)
      by (rewrite Ec; apply lettersFrom_allLetters).
    split; [exact Hl|]. split.
    + exists (map (fun i => CallReserveCode (candidate Reader (drawn τ + 8 * i))
                              (PlaceholderTTL (cfg s))) (seq 0 n)).
      split.
      * rewrite Hc, seq_S, map_app. cbn [map]. do 4 f_equal.
        rewrite Ec. f_equal. lia.
      * apply List.Forall_forall. intros c Hin.
        apply in_map_iff in Hin as (i & <- & _). eauto.
    + intros τ2 body put get.
      assert (Hp : HasPrefix ("/message/" +:+ code) "/message/" = true)
        by apply HasPrefix_message.
      assert (Hclean : pathIsClean ("/message/" +:+ code) = true)
        by now apply message_path_clean.
      split.
      * intros Hcap Hnb.
        rewrite (ServeHTTP_message_clean Reader s fuel put τ2 Hp Hclean).
        cbn [worldOf].
        destruct (put_attach s put τ2 eq_refl Hp Hcap Hnb) as (Hs & _).
        rewrite Hs. cbn [Path Body put NewRequest].
        rewrite TrimPrefix_message. reflexivity.
      * rewrite (ServeHTTP_message_clean Reader s fuel get τ2 Hp Hclean).
        cbn [worldOf].
        destruct (get_lookup s get τ2 eq_refl Hp) as (Hs & _).
        rewrite Hs. cbn [Path get NewRequest].
        rewrite TrimPrefix_message. reflexivity.
  - rewrite Hpath in Hpre. discriminate Hpre.
  - rewrite Hpath in Hh. discriminate Hh.
Qed.

(** One round on the test store: the code [ABCDEFGH] is reserved, and the
    reply carries it. *)
Lemma one_code_through_the_three_handlers_witness :
  let r := NewRequest "GET" "/code" "" in
  let τ := boot {| inner := reservingMock; calls := [] |} in
  let served := ServeHTTP counting newTestServer 1 r τ in
  let resp := default (bare 0) (replyOf served) in
  let τ1 := worldOf τ served in
  (Path r = "/code"%string
   /\ ServeHTTP counting newTestServer 1 r τ = Replied resp τ1
   /\ Status resp = StatusOK
   /\ Payload resp = encodeCode "ABCDEFGH")
  /\ allLetters "ABCDEFGH" = true
  /\ exists earlier,
       calls (store τ1)
       = calls (store τ) ++ earlier
         ++ [CallReserveCode "ABCDEFGH" (PlaceholderTTL (cfg newTestServer))]
       /\ Forall (fun c => exists other,
                    c = CallReserveCode other (PlaceholderTTL (cfg newTestServer)))
                 earlier.
Proof.
  intros r τ served resp τ1.
  assert (E : ServeHTTP counting newTestServer 1 r τ = Replied resp τ1)
    by (vm_compute; reflexivity).
  assert (E2 : Status resp = StatusOK) by (vm_compute; reflexivity).
  assert (E3 : Payload resp = encodeCode "ABCDEFGH") by (vm_compute; reflexivity).
  split; [repeat split; assumption|].
  pose proof (one_code_through_the_three_handlers counting newTestServer 1 r τ τ1
                resp "ABCDEFGH" eq_refl E E2 E3) as (A & B & _).
  split; [exact A | exact B].
Defined.

(* ===================================================================== *)
(** ** internal/log *)
(* ===================================================================== *)

Section LogFacts.
Variable MapToLower : string -> string.

Lemma lowerBytes_without_upper (str : string) :
  AppLog.hasUpper str = false -> AppLog.lowerBytes str = str.
Proof.
  induction str as [|c t IH]; [reflexivity|].
  cbn [AppLog.hasUpper AppLog.lowerBytes]. intros H.
  apply orb_false_iff in H as [Hc Ht].
  unfold AppLog.lowerByte. now rewrite Hc, (IH Ht).
Qed.

(** On an ASCII string [strings.ToLower] lowers every byte. *)
Lemma ToLower_ASCII (str : string) :
  AppLog.isASCII str = true ->
  AppLog.ToLower MapToLower str = AppLog.lowerBytes str.
Proof.
  intros A. unfold AppLog.ToLower. rewrite A.
  destruct (AppLog.hasUpper str) eqn:U; [reflexivity|].
  symmetry. now apply lowerBytes_without_upper.
Qed.

Lemma New_level_range (levelStr : string) :
  0 <= AppLog.level (AppLog.New MapToLower levelStr) <= 3.
Proof.
  unfold AppLog.New.
  destruct (String.eqb _ "debug"); [vm_compute; split; discriminate|].
  destruct (String.eqb _ "warn"); [vm_compute; split; discriminate|].
  destruct (String.eqb _ "error"); vm_compute; split; discriminate.
Qed.

End LogFacts.

(** X14: [New] and [levelString] are inverse on the four levels. The logger
    built from the name of a level filters at that level; for any other
    value of [Level] the name is [info], so the logger filters at Info. *)
Theorem New_of_levelString
  (MapToLower : string -> string) (lv : AppLog.Level) :
  AppLog.level (AppLog.New MapToLower (AppLog.levelString lv))
  = if (0 <=? lv) && (lv <=? 3) then lv else AppLog.Info.
Proof.
  unfold AppLog.levelString.
  destruct (Z.eqb_spec lv AppLog.Debug) as [->|N0]; [reflexivity|].
  destruct (Z.eqb_spec lv AppLog.Info) as [->|N1]; [reflexivity|].
  destruct (Z.eqb_spec lv AppLog.Warn) as [->|N2]; [reflexivity|].
  destruct (Z.eqb_spec lv AppLog.Error) as [->|N3]; [reflexivity|].
  unfold AppLog.Debug, AppLog.Info, AppLog.Warn, AppLog.Error in *.
  destruct ((0 <=? lv) && (lv <=? 3)) eqn:E; [|reflexivity].
  apply andb_true_iff in E as [A B]. apply Z.leb_le in A, B. lia.
Qed.

(** X15: what a [JSONLogger] built by [New] does with a call of the server.
    Its threshold lies between Debug and Error, so a call at level Error is
    always written; a call at level Warn is written unless the lower-cased
    level string is [error]; a call is written as exactly one more line
    after what [os.Stderr] holds, or not at all. *)
Theorem server_calls_written_by_a_New_logger
  (MapToLower : string -> string) (any : Type) (box : string -> any)
  (Marshal : gmap string any -> option string)
  (levelStr now : string) (e : Log.Entry) (stderr : list string) :
  let l := AppLog.New MapToLower levelStr in
  let after := AppLog.serverCall any box Marshal l now e stderr in
  0 <= AppLog.level l <= 3
  /\ (after = stderr \/ exists line, after = stderr ++ [line])
  /\ (Log.level e = Log.Error -> exists line, after = stderr ++ [line])
  /\ (Log.level e = Log.Warn ->
      (after = stderr <-> AppLog.ToLower MapToLower levelStr = "error"%string)).
Proof.
  intros l after. pose proof (New_level_range MapToLower levelStr) as R.
  fold l in R. split; [exact R|].
  unfold after, AppLog.serverCall, AppLog.JSONLogger_Debug, AppLog.JSONLogger_Info,
    AppLog.JSONLogger_Warn, AppLog.JSONLogger_Error, AppLog.log.
  split; [|split].
  - destruct (Log.level e);
      match goal with |- context [?a <? ?b] => destruct (a <? b) end; eauto.
  - intros ->. destruct (Z.ltb_spec AppLog.Error (AppLog.level l)) as [L|L];
      [unfold AppLog.Error in L; lia | eauto].
  - intros ->. unfold l, AppLog.New in *.
    destruct (String.eqb_spec (AppLog.ToLower MapToLower levelStr) "debug") as [E|_].
    { cbn. rewrite E. split; [|discriminate].
      intros K. apply (f_equal (@length _)) in K. rewrite length_app in K.
      cbn in K. lia. }
    destruct (String.eqb_spec (AppLog.ToLower MapToLower levelStr) "warn") as [E|_].
    { cbn. rewrite E. split; [|discriminate].
      intros K. apply (f_equal (@length _)) in K. rewrite length_app in K.
      cbn in K. lia. }
    destruct (String.eqb_spec (AppLog.ToLower MapToLower levelStr) "error") as [E|N].
    { cbn. tauto. }
    cbn. split; [|intros K; now contradiction N].
    intros K. apply (f_equal (@length _)) in K. rewrite length_app in K.
    cbn in K. lia.
Qed.

(** X16: for level strings in ASCII [New] does not look at the case of the
    letters: two strings that become equal once their upper-case letters
    are lowered build the same logger. *)
Theorem New_ignores_ASCII_case
  (MapToLower : string -> string) (s1 s2 : string) :
  AppLog.isASCII s1 = true ->
  AppLog.isASCII s2 = true ->
  AppLog.lowerBytes s1 = AppLog.lowerBytes s2 ->
  AppLog.New MapToLower s1 = AppLog.New MapToLower s2.
Proof.
  intros A1 A2 E. unfold AppLog.New.
  now rewrite (ToLower_ASCII MapToLower s1 A1), (ToLower_ASCII MapToLower s2 A2), E.
Qed.

Lemma New_ignores_ASCII_case_witness :
  (AppLog.isASCII "WaRn" = true /\ AppLog.isASCII "warn" = true
   /\ AppLog.lowerBytes "WaRn" = AppLog.lowerBytes "warn")
  /\ AppLog.New (fun str => str) "WaRn" = AppLog.New (fun str => str) "warn"
  /\ AppLog.level (AppLog.New (fun str => str) "WaRn") = AppLog.Warn.
Proof.
  split; [repeat split; reflexivity|]. split; [|reflexivity].
  apply (New_ignores_ASCII_case (fun str => str) "WaRn" "warn"); reflexivity.
Defined.

(** X17: the record [log] marshals. A field of the caller always ends up in
    the record, also under the keys [ts], [level] and [msg], where it takes
    the place of the logger's own entry; a key the caller does not use
    holds the logger's entry if it is one of those three and is absent
    otherwise. For the calls of the server, whose only field is [endpoint],
    the record has the four keys [ts], [level], [msg] and [endpoint]. *)
Theorem log_record_fields_take_precedence
  (any : Type) (box : string -> any) (now : string) (lv : AppLog.Level)
  (msg endpoint : string) (fields : gmap string any) (k : string) :
  AppLog.record any box now lv msg fields !! k
  = match fields !! k with
    | Some v => Some v
    | None =>
      if String.eqb k "ts" then Some (box now)
      else if String.eqb k "level" then Some (box (AppLog.levelString lv))
      else if String.eqb k "msg" then Some (box msg)
      else None
    end
  /\ dom (AppLog.record any box now lv msg {[ "endpoint"%string := box endpoint ]})
     = ({[ "ts"%string; "level"%string; "msg"%string; "endpoint"%string ]}
          : gset string).
Proof.
  split.
  - unfold AppLog.record. rewrite lookup_union.
    destruct (fields !! k) as [v|] eqn:F; [now rewrite union_Some_l|].
    rewrite left_id by apply _.
    destruct (String.eqb_spec k "ts") as [->|N1]; [now rewrite lookup_insert_eq|].
    rewrite lookup_insert_ne by congruence.
    destruct (String.eqb_spec k "level") as [->|N2]; [now rewrite lookup_insert_eq|].
    rewrite lookup_insert_ne by congruence.
    destruct (String.eqb_spec k "msg") as [->|N3]; [now rewrite lookup_insert_eq|].
    rewrite lookup_insert_ne by congruence. apply lookup_empty.
  - unfold AppLog.record.
    rewrite dom_union_L, dom_singleton_L, !dom_insert_L, dom_empty_L. set_solver.
Qed.
